(** * Inline AI completion: trigger gate, context window, prompt, extraction

    A shallow embedding of the completion pipeline of the HuoHuaAI editor
    extension:

    - [src/api/index.ts]: [getCompletion] and [buildApiHandler];
    - [src/services/completion/AICompletionProvider.ts]: the inline
      completion provider with its session cache (module [Provider]);
    - the older, cache-less copy of the same class (module [Legacy]).

    JavaScript strings are modelled as [string]; line and column numbers and
    timestamps as [Z].  A call that may throw returns an [Outcome].  The
    provider object is a record of its four fields, passed into a call and
    returned by it; calls run one after the other.  The output channel
    (logging only) is left out. *)

From Stdlib Require Import String Ascii ZArith List Lia Bool.
From Stdlib Require QArith_base.
Import ListNotations.

Local Open Scope string_scope.
Local Open Scope Z_scope.

(* ===================================================================== *)
(** ** JavaScript string primitives used by the sources *)
(* ===================================================================== *)

Module JS.

(** [s.length] *)
Definition len (s : string) : Z := Z.of_nat (String.length s).

Fixpoint take (n : nat) (s : string) : string :=
  match n, s with
  | O, _ => ""
  | S _, EmptyString => ""
  | S k, String c r => String c (take k r)
  end.

Fixpoint drop (n : nat) (s : string) : string :=
  match n, s with
  | O, _ => s
  | S _, EmptyString => ""
  | S k, String _ r => drop k r
  end.

(** Index arguments of [substring] are clamped into [0 .. s.length]. *)
Definition clamp (s : string) (i : Z) : nat :=
  Z.to_nat (Z.min (Z.max 0 i) (len s)).

(** [s.substring(a, b)]: both ends clamped, swapped when [a > b]. *)
Definition substring (s : string) (a b : Z) : string :=
  let a' := clamp s a in
  let b' := clamp s b in
  let lo := Nat.min a' b' in
  let hi := Nat.max a' b' in
  take (hi - lo) (drop lo s).

(** [s.substring(a)] *)
Definition substringFrom (s : string) (a : Z) : string :=
  drop (clamp s a) s.

(** [text.startsWith(p)] *)
Definition startsWith (text p : string) : bool := String.prefix p text.

(** [s.indexOf(pat)]: the least index at which [pat] occurs. *)
Fixpoint indexOf (pat s : string) : option nat :=
  if String.prefix pat s then Some O
  else match s with
       | EmptyString => None
       | String _ r => option_map S (indexOf pat r)
       end.

(** [s.includes(pat)] *)
Definition includes (pat s : string) : bool :=
  match indexOf pat s with Some _ => true | None => false end.

(** Greatest index at which [pat] occurs in [s], counted from [i]. *)
Fixpoint lastIndexFrom (pat s : string) (i : Z) : option Z :=
  match s with
  | EmptyString => if String.prefix pat s then Some i else None
  | String _ r =>
      match lastIndexFrom pat r (i + 1) with
      | Some j => Some j
      | None => if String.prefix pat s then Some i else None
      end
  end.

(** [s.lastIndexOf(pat)], [-1] when [pat] does not occur. *)
Definition lastIndexOf (pat s : string) : Z :=
  match lastIndexFrom pat s 0 with Some j => j | None => -1 end.

(** White space removed by [trim], among the characters a [string] here can
    hold: tab to carriage return, space, and the no-break space.  The other
    blanks that [trim] removes (U+FEFF, U+2028, U+3000 and the like) lie
    beyond these 8-bit characters. *)
Definition isSpace (c : ascii) : bool :=
  let n := nat_of_ascii c in
  ((9 <=? n)%nat && (n <=? 13)%nat) || (n =? 32)%nat || (n =? 160)%nat.

Fixpoint trimStart (s : string) : string :=
  match s with
  | EmptyString => ""
  | String c r => if isSpace c then trimStart r else s
  end.

Fixpoint trimEnd (s : string) : string :=
  match s with
  | EmptyString => ""
  | String c r =>
      match trimEnd r with
      | EmptyString => if isSpace c then "" else String c ""
      | r' => String c r'
      end
  end.

(** [s.trim()] *)
Definition trim (s : string) : string := trimEnd (trimStart s).

(** [a === b] on strings *)
Definition seq (a b : string) : bool := String.eqb a b.

Definition nl : string := String "010"%char "".
Definition dq : string := String "034"%char "".

(** [lines.join(sep)] *)
Fixpoint join (sep : string) (l : list string) : string :=
  match l with
  | [] => ""
  | [x] => x
  | x :: r => x ++ sep ++ join sep r
  end.

End JS.

(* ===================================================================== *)
(** ** Outcomes of calls that may throw *)
(* ===================================================================== *)

Inductive Outcome (A : Type) : Type :=
| Returned (a : A)
| Threw.
Arguments Returned {A} a.
Arguments Threw {A}.

Definition bindO {A B : Type} (o : Outcome A) (k : A -> Outcome B) : Outcome B :=
  match o with
  | Returned a => k a
  | Threw => Threw
  end.

(** [try { body } catch (error) { handler }] *)
Definition tryCatch {A : Type} (body : Outcome A) (handler : A) : Outcome A :=
  match body with
  | Returned a => Returned a
  | Threw => Returned handler
  end.

Notation "x <- c ;; k" := (bindO c (fun x => k))
  (at level 61, c at next level, right associativity).

(* ===================================================================== *)
(** ** Extraction of the completion payload (api/index.ts, lines 154-156) *)
(* ===================================================================== *)

Module Extract.

Definition OPEN_TAG : string := "<COMPLETION>".
Definition CLOSE_TAG : string := "</COMPLETION>".

(** The lazy group [([\s\S]*?)] followed by the closing tag: the group grows
    one character at a time until the closing tag matches. *)
Fixpoint lazyGroup (s : string) : option string :=
  if String.prefix CLOSE_TAG s then Some ""
  else match s with
       | EmptyString => None
       | String c r => option_map (String c) (lazyGroup r)
       end.

(** One attempt of the pattern [/<COMPLETION>([\s\S]*?)<\/COMPLETION>/]
    anchored at the start of [s]; the result is capture group 1. *)
Definition matchHere (s : string) : option string :=
  if String.prefix OPEN_TAG s
  then lazyGroup (JS.drop (String.length OPEN_TAG) s)
  else None.

(** [responseText.match(/.../)]: the attempts go left to right and the
    first start position that matches wins. *)
Fixpoint regexMatch (s : string) : option string :=
  match matchHere s with
  | Some g => Some g
  | None => match s with
            | EmptyString => None
            | String _ r => regexMatch r
            end
  end.

(** [completionMatch ? completionMatch[1] : ''] *)
Definition extractedText (responseText : string) : string :=
  match regexMatch responseText with
  | Some g => g
  | None => ""
  end.

(** Reading of the specification: two scans, the first opening tag and then
    the first closing tag after it. *)
Definition twoScan (s : string) : string :=
  match JS.indexOf OPEN_TAG s with
  | None => ""
  | Some i =>
      let rest := JS.drop (i + String.length OPEN_TAG) s in
      match JS.indexOf CLOSE_TAG rest with
      | None => ""
      | Some j => JS.take j rest
      end
  end.

(** [pat] occurs in [s] at index [i]. *)
Definition occursAt (pat s : string) (i : nat) : Prop :=
  String.prefix pat (JS.drop i s) = true.

Definition firstAt (pat s : string) (i : nat) : Prop :=
  occursAt pat s i /\ forall j, (j < i)%nat -> ~ occursAt pat s j.

End Extract.

(* ===================================================================== *)
(** ** The completion client (api/index.ts) *)
(* ===================================================================== *)

Module Api.

(** [ApiConfiguration]: the provider selection and its options.  The type
    is declared outside the listed sources; the three fields the client
    names are kept, the remaining options are carried as key/value pairs. *)
Record ApiConfiguration : Type := {
  apiProvider : option string;
  apiModelId : option string;
  apiKey : option string;
  otherOptions : list (string * string)
}.

(** [const { apiProvider, ...options } = configuration] *)
Record ApiHandlerOptions : Type := {
  opt_apiModelId : option string;
  opt_apiKey : option string;
  opt_others : list (string * string)
}.

Inductive HandlerClass : Type :=
| AnthropicHandler | OpenRouterHandler | AwsBedrockHandler | VertexHandler
| OpenAiHandler | OllamaHandler | LmStudioHandler | GeminiHandler
| OpenAiNativeHandler | DeepSeekHandler.

Record ApiHandler : Type := {
  handlerClass : HandlerClass;
  handlerOptions : ApiHandlerOptions
}.

Definition restOptions (configuration : ApiConfiguration) : ApiHandlerOptions :=
  {| opt_apiModelId := apiModelId configuration;
     opt_apiKey := apiKey configuration;
     opt_others := otherOptions configuration |}.

Definition classOf (provider : option string) : HandlerClass :=
  match provider with
  | None => AnthropicHandler
  | Some p =>
      if JS.seq p "anthropic" then AnthropicHandler
      else if JS.seq p "openrouter" then OpenRouterHandler
      else if JS.seq p "bedrock" then AwsBedrockHandler
      else if JS.seq p "vertex" then VertexHandler
      else if JS.seq p "openai" then OpenAiHandler
      else if JS.seq p "ollama" then OllamaHandler
      else if JS.seq p "lmstudio" then LmStudioHandler
      else if JS.seq p "gemini" then GeminiHandler
      else if JS.seq p "openai-native" then OpenAiNativeHandler
      else if JS.seq p "deepseek" then DeepSeekHandler
      else AnthropicHandler
  end.

Definition buildApiHandler (configuration : ApiConfiguration) : ApiHandler :=
  {| handlerClass := classOf (apiProvider configuration);
     handlerOptions := restOptions configuration |}.

Record MessageParam : Type := { role : string; content : string }.

(** A chunk of [ApiStream]: a text chunk carries a [text] property, a usage
    chunk does not. *)
Inductive ApiStreamChunk : Type :=
| TextChunk (text : string)
| UsageChunk (inputTokens outputTokens : Z).

(** What iterating the stream delivers: chunks, then the end of the stream
    or an error raised by the backend. *)
Inductive ApiStream : Type :=
| StreamEnd
| StreamError
| StreamChunk (chunk : ApiStreamChunk) (rest : ApiStream).

(** Modelled from the spec: the provider handlers (their constructors and
    [createMessage]) are not among the listed sources.  The Completion
    Backend, given a system prompt and the ordered messages, returns a lazy,
    finite sequence of chunks.  Building the handler and calling
    [createMessage] may themselves throw ([Threw]); failures of a stream
    that was returned surface while it is drained. *)
Definition Backend : Type :=
  ApiHandler -> string -> list MessageParam -> Outcome ApiStream.

Record CompletionOptions : Type := {
  prompt : string;
  maxTokens : Z;
  temperature : QArith_base.Q;
  cursorPosition : Z;
  (** passed by the provider, not declared by the interface, never read *)
  configuration : option ApiConfiguration
}.

Record CompletionResult : Type := {
  text : string;
  detail : option string
}.

(** [x || ''] on a string *)
Definition orEmpty (x : string) : string :=
  match x with EmptyString => "" | _ => x end.

Definition lastLineBreakIndex (options : CompletionOptions) : Z :=
  JS.lastIndexOf JS.nl (prompt options).

Definition contextPrefix (options : CompletionOptions) : string :=
  orEmpty (JS.substring (prompt options) 0 (lastLineBreakIndex options + 1)).

Definition lastLine (options : CompletionOptions) : string :=
  JS.substringFrom (prompt options) (lastLineBreakIndex options + 1).

Definition prefix (options : CompletionOptions) : string :=
  contextPrefix options ++ JS.substring (lastLine options) 0 (cursorPosition options).

Definition suffix (options : CompletionOptions) : string :=
  JS.substringFrom (lastLine options) (cursorPosition options).

Definition SENTINEL : string := "{{FILL_HERE}}".

Definition SYSTEM_MSG : string :=
  JS.join JS.nl [
    "You are a HOLE FILLER. You are provided with a file containing holes, formatted as '{{HOLE_NAME}}'. Your TASK is to complete with a string to replace this hole with, inside a <COMPLETION/> XML tag, including context-aware indentation, if needed.  All completions MUST be truthful, accurate, well-written and correct.";
    "";
    "## EXAMPLE QUERY:";
    "";
    "<QUERY>";
    "function sum_evens(lim) {";
    "  var sum = 0;";
    "  for (var i = 0; i < lim; ++i) {";
    "    {{FILL_HERE}}";
    "  }";
    "  return sum;";
    "}";
    "</QUERY>";
    "";
    "TASK: Fill the {{FILL_HERE}} hole.";
    "";
    "## CORRECT COMPLETION";
    "";
    "<COMPLETION>if (i % 2 === 0) {";
    "      sum += i;";
    "    }</COMPLETION>";
    "";
    "## EXAMPLE QUERY:";
    "";
    "<QUERY>";
    "def sum_list(lst):";
    "  total = 0";
    "  for x in lst:";
    "  {{FILL_HERE}}";
    "  return total";
    "";
    "print sum_list([1, 2, 3])";
    "</QUERY>";
    "";
    "## CORRECT COMPLETION:";
    "";
    "<COMPLETION>  total += x</COMPLETION>";
    "";
    "## EXAMPLE QUERY:";
    "";
    "<QUERY>";
    "// data Tree a = Node (Tree a) (Tree a) | Leaf a";
    "";
    "// sum :: Tree Int -> Int";
    "// sum (Node lft rgt) = sum lft + sum rgt";
    "// sum (Leaf val)     = val";
    "";
    "// convert to TypeScript:";
    "{{FILL_HERE}}";
    "</QUERY>";
    "";
    "## CORRECT COMPLETION:";
    "";
    "<COMPLETION>type Tree<T>";
    "  = {$:" ++ JS.dq ++ "Node" ++ JS.dq ++ ", lft: Tree<T>, rgt: Tree<T>}";
    "  | {$:" ++ JS.dq ++ "Leaf" ++ JS.dq ++ ", val: T};";
    "";
    "function sum(tree: Tree<number>): number {";
    "  switch (tree.$) {";
    "    case " ++ JS.dq ++ "Node" ++ JS.dq ++ ":";
    "      return sum(tree.lft) + sum(tree.rgt);";
    "    case " ++ JS.dq ++ "Leaf" ++ JS.dq ++ ":";
    "      return tree.val;";
    "  }";
    "}</COMPLETION>";
    "";
    "## EXAMPLE QUERY:";
    "";
    "The 5th {{FILL_HERE}} is Jupiter.";
    "";
    "## CORRECT COMPLETION:";
    "";
    "<COMPLETION>planet from the Sun</COMPLETION>";
    "";
    "## EXAMPLE QUERY:";
    "";
    "function hypothenuse(a, b) {";
    "  return Math.sqrt({{FILL_HERE}}b ** 2);";
    "}";
    "";
    "## CORRECT COMPLETION:";
    "";
    "<COMPLETION>a ** 2 + </COMPLETION>"
  ].

(** The text after the hole: end of the query block and the closing
    instruction, which leaves the completion tag open for the answer. *)
Definition CLOSING : string :=
  JS.nl ++ "</QUERY>" ++ JS.nl
  ++ "TASK: Fill the {{FILL_HERE}} hole. Answer only with the CORRECT completion, and NOTHING ELSE. Do it now."
  ++ JS.nl ++ "<COMPLETION>".

Definition fullPrompt (options : CompletionOptions) : string :=
  SYSTEM_MSG
  ++ (JS.nl ++ JS.nl ++ "<QUERY>" ++ JS.nl
      ++ prefix options ++ SENTINEL ++ suffix options ++ CLOSING).

(** The configuration built inside [getCompletion].  The credential literal
    of the source is not reproduced here; nothing below depends on it. *)
Definition hardCodedConfiguration : ApiConfiguration :=
  {| apiProvider := Some "anthropic";
     apiModelId := Some "claude-3-5-sonnet-20240620";
     apiKey := Some "sk-ant-api03-(elided)";
     otherOptions := [] |}.

Definition messagesOf (options : CompletionOptions) : list MessageParam :=
  [ {| role := "user"; content := fullPrompt options |} ].

(** [for await (const chunk of stream)]: only chunks with a [text] property
    contribute (the stream type holds no bare strings, so the second branch
    of the loop body never runs); an error ends the loop with an exception. *)
Fixpoint drain (stream : ApiStream) (responseText : string) : Outcome string :=
  match stream with
  | StreamEnd => Returned responseText
  | StreamError => Threw
  | StreamChunk (TextChunk t) rest => drain rest (responseText ++ t)
  | StreamChunk (UsageChunk _ _) rest => drain rest responseText
  end.

(** [buildApiHandler(configuration)] and [handler.createMessage(...)], both
    before the [try] block. *)
Definition streamOf (backend : Backend) (options : CompletionOptions)
  : Outcome ApiStream :=
  let handler := buildApiHandler hardCodedConfiguration in
  backend handler "You are a HOLE FILLER." (messagesOf options).

Definition getCompletion (backend : Backend) (options : CompletionOptions)
  : Outcome (list CompletionResult) :=
  stream <- streamOf backend options ;;
  tryCatch
    (responseText <- drain stream "" ;;
     let extractedText := Extract.extractedText responseText in
     Returned [ {| text := extractedText; detail := Some "AI Completion" |} ])
    [ {| text := ""; detail := Some "Error generating completion" |} ].

(** The stream raises an error somewhere while it is drained. *)
Inductive Raises : ApiStream -> Prop :=
| raisesNow : Raises StreamError
| raisesLater chunk rest : Raises rest -> Raises (StreamChunk chunk rest).

(** The same options with another [configuration] argument. *)
Definition withConfiguration (options : CompletionOptions)
    (cfg : option ApiConfiguration) : CompletionOptions :=
  {| prompt := prompt options;
     maxTokens := maxTokens options;
     temperature := temperature options;
     cursorPosition := cursorPosition options;
     configuration := cfg |}.

(** Where the prompt is cut into [prefix] and [suffix]: the start of its
    last line plus the cursor column, kept inside that line. *)
Definition lastLineStart (options : CompletionOptions) : nat :=
  Z.to_nat (lastLineBreakIndex options + 1).

Definition holeOffset (options : CompletionOptions) : nat :=
  (lastLineStart options
   + Z.to_nat (Z.min (Z.max 0 (cursorPosition options))
                     (JS.len (JS.drop (lastLineStart options) (prompt options)))))%nat.

End Api.

(* ===================================================================== *)
(** ** The Text Source: documents, positions and ranges of the host *)
(* ===================================================================== *)

Module Editor.

Record Position : Type := { line : Z; character : Z }.

Record Range : Type := { rangeStart : Position; rangeEnd : Position }.

Definition isBefore (a b : Position) : bool :=
  (line a <? line b) || ((line a =? line b) && (character a <? character b)).

(** [new vscode.Range(a, b)]: the earlier position becomes the start. *)
Definition newRange (a b : Position) : Range :=
  if isBefore b a then {| rangeStart := b; rangeEnd := a |}
  else {| rangeStart := a; rangeEnd := b |}.

Record TextDocument : Type := {
  lines : list string;
  eol : string;
  languageId : string
}.

Definition lineCount (document : TextDocument) : Z :=
  Z.of_nat (List.length (lines document)).

Definition lineText (document : TextDocument) (n : Z) : string :=
  nth (Z.to_nat n) (lines document) "".

(** [document.lineAt(n).text]; throws when [n] is not a line of the document. *)
Definition lineAt (document : TextDocument) (n : Z) : Outcome string :=
  if (n <? 0) || (lineCount document <=? n) then Threw
  else Returned (lineText document n).

(** A cursor position the host can report for the document. *)
Definition validPosition (document : TextDocument) (p : Position) : Prop :=
  0 <= line p < lineCount document /\
  0 <= character p <= JS.len (lineText document (line p)).

(** [document.validatePosition(p)] *)
Definition validatePosition (document : TextDocument) (p : Position) : Position :=
  if line p <? 0 then {| line := 0; character := 0 |}
  else if lineCount document <=? line p then
    {| line := lineCount document - 1;
       character := JS.len (lineText document (lineCount document - 1)) |}
  else
    {| line := line p;
       character := Z.min (Z.max 0 (character p))
                          (JS.len (lineText document (line p))) |}.

(** Lines [a], [a+1], ..., [b-1] of the document. *)
Definition linesBetween (document : TextDocument) (a b : Z) : list string :=
  firstn (Z.to_nat b - Z.to_nat a) (skipn (Z.to_nat a) (lines document)).

(** [document.getText(range)]: the range is validated, then the text from
    its start to its end is returned with the document's line separator. *)
Definition getText (document : TextDocument) (range : Range) : string :=
  let s := validatePosition document (rangeStart range) in
  let e := validatePosition document (rangeEnd range) in
  if line s =? line e then
    JS.substring (lineText document (line s)) (character s) (character e)
  else
    JS.join (eol document)
      (JS.substringFrom (lineText document (line s)) (character s)
       :: linesBetween document (line s + 1) (line e)
       ++ [JS.substring (lineText document (line e)) 0 (character e)]).

End Editor.

(* ===================================================================== *)
(** ** Helpers that are identical in both copies of the provider *)
(* ===================================================================== *)

Module Lexical.
Import Editor.

Definition isInComment (document : TextDocument) (position : Position) : Outcome bool :=
  ln <- lineAt document (line position) ;;
  let prefix := JS.substring ln 0 (character position) in
  if JS.includes "//" prefix then Returned true
  else
    let text := getText document
                  (newRange {| line := 0; character := 0 |} position) in
    let commentStart := JS.lastIndexOf "/*" text in
    let commentEnd := JS.lastIndexOf "*/" text in
    Returned (commentEnd <? commentStart).

Definition isQuote (char : ascii) : bool :=
  Ascii.eqb char "034"%char || Ascii.eqb char "'"%char.

(** [linePrefix[linePrefix.length - 1]] *)
Fixpoint lastChar (s : string) : option ascii :=
  match s with
  | EmptyString => None
  | String c EmptyString => Some c
  | String _ r => lastChar r
  end.

Definition isBackslash (c : option ascii) : bool :=
  match c with Some x => Ascii.eqb x "\"%char | None => false end.

Definition sameQuote (char : ascii) (quote : option ascii) : bool :=
  match quote with Some q => Ascii.eqb char q | None => false end.

(** The loop of [isInString] over the remaining characters; [whole] is the
    complete line prefix, which the escape test indexes at its last place. *)
Fixpoint scanQuotes (whole rest : string) (inString : bool) (quote : option ascii) : bool :=
  match rest with
  | EmptyString => inString
  | String char r =>
      if isQuote char && (match quote with None => true | Some _ => false end)
      then scanQuotes whole r true (Some char)
      else if sameQuote char quote
      then (if negb (isBackslash (lastChar whole))
            then scanQuotes whole r (negb inString) quote
            else scanQuotes whole r inString quote)
      else scanQuotes whole r inString quote
  end.

Definition isInString (linePrefix : string) : bool :=
  scanQuotes linePrefix linePrefix false None.

(** The first quote character of the string, and the number of times a
    character occurs in it. *)
Fixpoint firstQuote (s : string) : option ascii :=
  match s with
  | EmptyString => None
  | String c r => if isQuote c then Some c else firstQuote r
  end.

Fixpoint countChar (q : ascii) (s : string) : nat :=
  match s with
  | EmptyString => O
  | String c r => if Ascii.eqb c q then S (countChar q r) else countChar q r
  end.


(** Reading of the specification: one scan in which every quote, double or
    single, toggles the state, except a closing quote whose immediately
    preceding character is a backslash. *)
Fixpoint specScan (previous : option ascii) (rest : string) (inString : bool) : bool :=
  match rest with
  | EmptyString => inString
  | String char r =>
      if isQuote char && negb (inString && isBackslash previous)
      then specScan (Some char) r (negb inString)
      else specScan (Some char) r inString
  end.

Definition specInString (linePrefix : string) : bool :=
  specScan None linePrefix false.

Definition getContextRange (document : TextDocument) (position : Position) : Range :=
  let startLine := Z.max 0 (line position - 3) in
  let endLine := Z.min (lineCount document) (line position + 1) in
  newRange {| line := startLine; character := 0 |} position.

(** The loop that fills [prevLines]: [count] iterations from line [i]. *)
Fixpoint collectPrevLines (document : TextDocument) (i : Z) (count : nat)
  : Outcome (list string) :=
  match count with
  | O => Returned []
  | S k =>
      ln <- lineAt document i ;;
      rest <- collectPrevLines document (i + 1) k ;;
      Returned (JS.trim ln :: rest)
  end.

Definition prevLines (document : TextDocument) (position : Position)
  : Outcome (list string) :=
  let first := Z.max 0 (line position - 3) in
  collectPrevLines document first (Z.to_nat (line position - first)).

(** [prevLines.some(line => line !== '')] *)
Definition someNonEmpty (l : list string) : bool :=
  existsb (fun ln => negb (JS.seq ln "")) l.

(** Reading of the specification: the lines of the context window, the
    last one cut at the cursor. *)
Definition windowLines (document : TextDocument) (position : Position) : list string :=
  (linesBetween document (Z.max 0 (line position - 3)) (line position)
   ++ [JS.substring (lineText document (line position)) 0 (character position)])%list.

End Lexical.

(* ===================================================================== *)
(** ** The provider with its session cache (AICompletionProvider.ts) *)
(* ===================================================================== *)

Module Provider.
Import Editor.

Record InlineCompletionItem : Type := {
  insertText : string;
  range : Range
}.

Record InlineCompletionList : Type := {
  items : list InlineCompletionItem
}.

(** [{ line, character, text }] *)
Record Input : Type := {
  inLine : Z;
  inCharacter : Z;
  inText : string
}.

(** The private fields of the provider object. *)
Record State : Type := {
  lastTriggerTime : Z;
  lastInput : option Input;
  lastCompletionText : option string;
  lastCompetionList : option InlineCompletionList
}.

Definition TRIGGER_DELAY : Z := 1000.

(** Field initialisers of the class. *)
Definition initial : State :=
  {| lastTriggerTime := 0;
     lastInput := None;
     lastCompletionText := None;
     lastCompetionList := None |}.

Definition setLastInput (s : State) (i : Input) : State :=
  {| lastTriggerTime := lastTriggerTime s;
     lastInput := Some i;
     lastCompletionText := lastCompletionText s;
     lastCompetionList := lastCompetionList s |}.

Definition setLastTriggerTime (s : State) (t : Z) : State :=
  {| lastTriggerTime := t;
     lastInput := lastInput s;
     lastCompletionText := lastCompletionText s;
     lastCompetionList := lastCompetionList s |}.

Definition setLastCompletionText (s : State) (t : string) : State :=
  {| lastTriggerTime := lastTriggerTime s;
     lastInput := lastInput s;
     lastCompletionText := Some t;
     lastCompetionList := lastCompetionList s |}.

Definition setLastCompetionList (s : State) (l : InlineCompletionList) : State :=
  {| lastTriggerTime := lastTriggerTime s;
     lastInput := lastInput s;
     lastCompletionText := lastCompletionText s;
     lastCompetionList := Some l |}.

(** [context.selectedCompletionInfo] *)
Record SelectedCompletionInfo : Type := {
  selRange : Range;
  selText : string
}.

(** Everything one invocation reads from the host. *)
Record Call : Type := {
  document : TextDocument;
  position : Position;
  selectedCompletionInfo : option SelectedCompletionInfo;
  (** [token.isCancellationRequested] when the call starts *)
  isCancellationRequested : bool;
  (** the token is raised later, while the backend is awaited *)
  cancelledDuringRoundTrip : bool;
  (** [vscode.window.activeTextEditor] and its [selections.length] *)
  activeSelections : option nat;
  (** [Date.now()] inside [shouldTriggerCompletion] *)
  nowAtGate : Z;
  (** [Date.now()] after the completions have arrived *)
  nowAtResponse : Z;
  (** [ClineProvider.getVisibleInstance()] and, when present, the
      configuration of its [getState()] *)
  visibleInstance : option (Outcome Api.ApiConfiguration);
  backend : Api.Backend
}.

(** What an invocation leaves behind: the settled value of the promise
    ([None] is [undefined]), the fields afterwards, and the options of every
    [getCompletion] call it issued. *)
Record Step : Type := {
  result : Outcome (option InlineCompletionList);
  after : State;
  requests : list Api.CompletionOptions
}.

Definition finish (r : option InlineCompletionList) (s : State) : Step :=
  {| result := Returned r; after := s; requests := [] |}.

Definition sameInput (last : option Input) (current : Input) : bool :=
  match last with
  | None => false
  | Some l =>
      (inLine l =? inLine current) && (inCharacter l =? inCharacter current)
      && JS.seq (inText l) (inText current)
  end.

(** [this.lastCompletionText && line.trim() === this.lastCompletionText.trim()];
    [null] and the empty string are falsy. *)
Definition sameAsLastCompletion (s : State) (currentLine : string) : bool :=
  match lastCompletionText s with
  | None => false
  | Some EmptyString => false
  | Some t => JS.seq (JS.trim currentLine) (JS.trim t)
  end.

Definition shouldTriggerCompletion (s : State) (now : Z)
    (document : TextDocument) (position : Position) (linePrefix : string)
  : Outcome bool :=
  if now - lastTriggerTime s <? TRIGGER_DELAY then Returned false
  else
    prev <- Lexical.prevLines document position ;;
    if JS.seq (JS.trim linePrefix) "" && Lexical.someNonEmpty prev
    then Returned true
    else if negb (JS.seq (JS.trim linePrefix) "") then Returned true
    else
      inComment <- Lexical.isInComment document position ;;
      if inComment then Returned false
      else if Lexical.isInString linePrefix then Returned false
      else Returned false.

Definition multipleSelections (c : Call) : bool :=
  match activeSelections c with
  | Some n => (1 <? n)%nat
  | None => false
  end.

Definition staleSelectedCompletion (c : Call) : bool :=
  match selectedCompletionInfo c with
  | Some info =>
      negb (JS.startsWith (selText info) (getText (document c) (selRange info)))
  | None => false
  end.

(** The three entry checks that return [undefined] before anything is read
    from the cache. *)
Definition refusedAtEntry (c : Call) : bool :=
  isCancellationRequested c || multipleSelections c || staleSelectedCompletion c.

Definition itemOf (position : Position) (completion : Api.CompletionResult)
  : InlineCompletionItem :=
  {| insertText := Api.text completion; range := newRange position position |}.

(** [completions.map(...)]: every result overwrites [lastCompletionText]. *)
Definition recordTexts (s : State) (completions : list Api.CompletionResult) : State :=
  fold_left (fun acc completion => setLastCompletionText acc (Api.text completion))
            completions s.

Definition optionsOf (c : Call) (contextText : string)
    (apiConfiguration : Api.ApiConfiguration) : Api.CompletionOptions :=
  {| Api.prompt := contextText;
     Api.maxTokens := 50;
     Api.temperature := QArith_base.Qmake 2 10;
     Api.cursorPosition := character (position c);
     Api.configuration := Some apiConfiguration |}.

Section WithClient.

(** The imported [getCompletion], applied to the backend of the call. *)
Variable client : Api.Backend -> Api.CompletionOptions
                  -> Outcome (list Api.CompletionResult).

(** The [try] block; whatever is thrown inside is caught and the call
    returns [undefined]. *)
Definition requestCompletion (s : State) (c : Call) : Step :=
  let contextRange := Lexical.getContextRange (document c) (position c) in
  let contextText := getText (document c) contextRange in
  match visibleInstance c with
  | None => finish None s
  | Some Threw => finish None s
  | Some (Returned apiConfiguration) =>
      let options := optionsOf c contextText apiConfiguration in
      match client (backend c) options with
      | Threw => {| result := Returned None; after := s; requests := [options] |}
      | Returned [] => {| result := Returned None; after := s; requests := [options] |}
      | Returned completions =>
          let s1 := setLastTriggerTime s (nowAtResponse c) in
          let s2 := recordTexts s1 completions in
          let completionList :=
            {| items := map (itemOf (position c)) completions |} in
          {| result := Returned (Some completionList);
             after := setLastCompetionList s2 completionList;
             requests := [options] |}
      end
  end.

Definition provideInlineCompletionItemsWith (s : State) (c : Call) : Step :=
  if isCancellationRequested c then finish None s
  else if multipleSelections c then finish None s
  else if staleSelectedCompletion c then finish None s
  else
    match lineAt (document c) (line (position c)) with
    | Threw => {| result := Threw; after := s; requests := [] |}
    | Returned currentLine =>
        let linePrefix := JS.substring currentLine 0 (character (position c)) in
        let currentInput :=
          {| inLine := line (position c);
             inCharacter := character (position c);
             inText := linePrefix |} in
        if sameInput (lastInput s) currentInput then finish (lastCompetionList s) s
        else
          let s1 := setLastInput s currentInput in
          if sameAsLastCompletion s1 currentLine
          then finish (lastCompetionList s1) s1
          else
            match shouldTriggerCompletion s1 (nowAtGate c)
                    (document c) (position c) linePrefix with
            | Threw => {| result := Threw; after := s1; requests := [] |}
            | Returned false => finish None s1
            | Returned true => requestCompletion s1 c
            end
    end.

(** A session: the calls of the host one after the other.  The log keeps,
    oldest first, what each issued [getCompletion] call returned. *)
Fixpoint runWith (s : State) (calls : list Call)
  : State * list (Outcome (list Api.CompletionResult)) :=
  match calls with
  | [] => (s, [])
  | c :: rest =>
      let st := provideInlineCompletionItemsWith s c in
      let '(s', log) := runWith (after st) rest in
      (s', (map (client (backend c)) (requests st) ++ log)%list)
  end.

End WithClient.

Definition provideInlineCompletionItems : State -> Call -> Step :=
  provideInlineCompletionItemsWith Api.getCompletion.

Definition run := runWith Api.getCompletion.

(** The line, character and line prefix an invocation compares with
    [lastInput]. *)
Definition fingerprint (c : Call) : Z * Z * string :=
  (line (position c), character (position c),
   JS.substring (lineText (document c) (line (position c))) 0
                (character (position c))).

Definition currentInput (c : Call) : Input :=
  {| inLine := line (position c);
     inCharacter := character (position c);
     inText := JS.substring (lineText (document c) (line (position c))) 0
                            (character (position c)) |}.

(** The contextual allowance of the gate: a non-blank line prefix, or a
    non-blank line among the up to three lines before the cursor line. *)
Definition allowedByContext (c : Call) : bool :=
  negb (JS.seq (JS.trim (inText (currentInput c))) "")
  || match Lexical.prevLines (document c) (position c) with
     | Returned prev => Lexical.someNonEmpty prev
     | Threw => false
     end.

(** A trigger that only the rate limit can still stop: it passes the entry
    checks, is no replay of the last input or of the last completion, and
    has context. *)
Definition eligible (s : State) (c : Call) : Prop :=
  validPosition (document c) (position c)
  /\ refusedAtEntry c = false
  /\ sameInput (lastInput s) (currentInput c) = false
  /\ sameAsLastCompletion s (lineText (document c) (line (position c))) = false
  /\ allowedByContext c = true.

(** The same call with another configuration reported by the host. *)
Definition withApiConfiguration (c : Call) (cfg : Api.ApiConfiguration) : Call :=
  {| document := document c;
     position := position c;
     selectedCompletionInfo := selectedCompletionInfo c;
     isCancellationRequested := isCancellationRequested c;
     cancelledDuringRoundTrip := cancelledDuringRoundTrip c;
     activeSelections := activeSelections c;
     nowAtGate := nowAtGate c;
     nowAtResponse := nowAtResponse c;
     visibleInstance := Some (Returned cfg);
     backend := backend c |}.

Definition textsOf (l : InlineCompletionList) : list string :=
  map insertText (items l).

(** The cached batch holds at least one item. *)
Definition batchNonEmpty (s : State) : bool :=
  match lastCompetionList s with
  | Some l => negb (Nat.eqb (List.length (items l)) 0)
  | None => false
  end.

Definition hasNonEmptyText (results : list Api.CompletionResult) : bool :=
  existsb (fun r => negb (JS.seq (Api.text r) "")) results.

(** The results of the most recent backend call of a log (oldest first). *)
Fixpoint mostRecent {A : Type} (log : list A) : option A :=
  match log with
  | [] => None
  | [x] => Some x
  | _ :: rest => mostRecent rest
  end.

(** The most recent backend call of a log that returned at least one
    result. *)
Fixpoint lastNonEmpty (log : list (Outcome (list Api.CompletionResult)))
  : option (list Api.CompletionResult) :=
  match log with
  | [] => None
  | entry :: rest =>
      match lastNonEmpty rest with
      | Some rs => Some rs
      | None => match entry with
                | Returned (r :: rs) => Some (r :: rs)
                | _ => None
                end
      end
  end.

(** Reading of the specification: a non-empty cached batch means that the
    most recent backend call returned a completion with non-empty text. *)
Definition CacheBatchClaim
    (session : State * list (Outcome (list Api.CompletionResult))) : Prop :=
  batchNonEmpty (fst session) = true ->
  exists results,
    mostRecent (snd session) = Some (Returned results)
    /\ hasNonEmptyText results = true.

(** The two cache fields of [s], reached from [s0] through calls whose
    backend log is [log]: set by the most recent call of the log that
    returned results, untouched when there is none. *)
Definition cacheFollows (s0 s : State)
    (log : list (Outcome (list Api.CompletionResult))) : Prop :=
  match lastNonEmpty log with
  | Some rs =>
      option_map textsOf (lastCompetionList s) = Some (map Api.text rs)
      /\ lastCompletionText s = Some (last (map Api.text rs) ""%string)
  | None =>
      lastCompetionList s = lastCompetionList s0
      /\ lastCompletionText s = lastCompletionText s0
  end.

End Provider.

(* ===================================================================== *)
(** ** The older copy of the provider: no cache, no entry checks *)
(* ===================================================================== *)

Module Legacy.
Import Editor.

Record State : Type := { lastTriggerTime : Z }.

Definition TRIGGER_DELAY : Z := 1000.

Definition initial : State := {| lastTriggerTime := 0 |}.

(** The value of the promise: the empty array or a completion list. *)
Inductive Reply : Type :=
| EmptyArray
| ListOf (l : Provider.InlineCompletionList).

Record Step : Type := {
  result : Outcome Reply;
  after : State;
  requests : list Api.CompletionOptions
}.

(** Here the contextual allowances come first and the rate limit after
    them. *)
Definition shouldTriggerCompletion (s : State) (now : Z)
    (document : TextDocument) (position : Position) (linePrefix : string)
  : Outcome bool :=
  prev <- Lexical.prevLines document position ;;
  if JS.seq (JS.trim linePrefix) "" && Lexical.someNonEmpty prev
  then Returned true
  else if negb (JS.seq (JS.trim linePrefix) "") then Returned true
  else if now - lastTriggerTime s <? TRIGGER_DELAY then Returned false
  else
    inComment <- Lexical.isInComment document position ;;
    if inComment then Returned false
    else if Lexical.isInString linePrefix then Returned false
    else Returned false.

Definition optionsOf (c : Provider.Call) (contextText : string)
  : Api.CompletionOptions :=
  {| Api.prompt := contextText;
     Api.maxTokens := 50;
     Api.temperature := QArith_base.Qmake 2 10;
     Api.cursorPosition := character (Provider.position c);
     Api.configuration := None |}.

Definition requestCompletion (s : State) (c : Provider.Call) : Step :=
  let document := Provider.document c in
  let position := Provider.position c in
  let contextRange := Lexical.getContextRange document position in
  let contextText := getText document contextRange in
  let options := optionsOf c contextText in
  match Api.getCompletion (Provider.backend c) options with
  | Threw => {| result := Returned EmptyArray; after := s; requests := [options] |}
  | Returned [] => {| result := Returned EmptyArray; after := s; requests := [options] |}
  | Returned completions =>
      {| result :=
           Returned (ListOf {| Provider.items :=
                                 map (Provider.itemOf position) completions |});
         after := {| lastTriggerTime := Provider.nowAtResponse c |};
         requests := [options] |}
  end.

Definition provideInlineCompletionItems (s : State) (c : Provider.Call) : Step :=
  let document := Provider.document c in
  let position := Provider.position c in
  match lineAt document (line position) with
  | Threw => {| result := Threw; after := s; requests := [] |}
  | Returned currentLine =>
      let linePrefix := JS.substring currentLine 0 (character position) in
      match shouldTriggerCompletion s (Provider.nowAtGate c)
              document position linePrefix with
      | Threw => {| result := Threw; after := s; requests := [] |}
      | Returned false => {| result := Returned EmptyArray; after := s; requests := [] |}
      | Returned true => requestCompletion s c
      end
  end.

End Legacy.

(* ===================================================================== *)
(** ** Concrete documents, backends and calls used in the examples *)
(* ===================================================================== *)

Module Samples.
Import Editor.

Definition document : TextDocument :=
  {| lines := ["const a = 1;"; "const b = "]%string;
     eol := JS.nl;
     languageId := "typescript" |}.

Definition position : Position := {| line := 1; character := 10 |}.

Definition configuration : Api.ApiConfiguration :=
  {| Api.apiProvider := Some "openrouter";
     Api.apiModelId := Some "some/model";
     Api.apiKey := None;
     Api.otherOptions := [] |}.

(** A backend that answers with a well-formed completion. *)
Definition answering : Api.Backend :=
  fun _ _ _ =>
    Returned
      (Api.StreamChunk (Api.TextChunk "<COMPLETION>a + 1;")
         (Api.StreamChunk (Api.UsageChunk 10 4)
            (Api.StreamChunk (Api.TextChunk "</COMPLETION>") Api.StreamEnd))).

(** A backend whose stream breaks after the first chunk. *)
Definition failing : Api.Backend :=
  fun _ _ _ =>
    Returned (Api.StreamChunk (Api.TextChunk "<COMPLETION>a") Api.StreamError).

(** A backend whose [createMessage] throws when it is called. *)
Definition unreachable : Api.Backend := fun _ _ _ => Threw.

(** [Samples.call] against the backend that cannot be invoked. *)
Definition callUnreachable : Provider.Call :=
  {| Provider.document := document;
     Provider.position := position;
     Provider.selectedCompletionInfo := None;
     Provider.isCancellationRequested := false;
     Provider.cancelledDuringRoundTrip := false;
     Provider.activeSelections := Some 1%nat;
     Provider.nowAtGate := 5000;
     Provider.nowAtResponse := 5600;
     Provider.visibleInstance := Some (Returned configuration);
     Provider.backend := unreachable |}.

Definition call : Provider.Call :=
  {| Provider.document := document;
     Provider.position := position;
     Provider.selectedCompletionInfo := None;
     Provider.isCancellationRequested := false;
     Provider.cancelledDuringRoundTrip := false;
     Provider.activeSelections := Some 1%nat;
     Provider.nowAtGate := 5000;
     Provider.nowAtResponse := 5600;
     Provider.visibleInstance := Some (Returned configuration);
     Provider.backend := answering |}.

(** The same call with the token already raised when it starts. *)
Definition cancelledAtEntry : Provider.Call :=
  {| Provider.document := document;
     Provider.position := position;
     Provider.selectedCompletionInfo := None;
     Provider.isCancellationRequested := true;
     Provider.cancelledDuringRoundTrip := false;
     Provider.activeSelections := Some 1%nat;
     Provider.nowAtGate := 5000;
     Provider.nowAtResponse := 5600;
     Provider.visibleInstance := Some (Returned configuration);
     Provider.backend := answering |}.

(** The same call with the token raised while the backend is awaited. *)
Definition cancelledLater : Provider.Call :=
  {| Provider.document := document;
     Provider.position := position;
     Provider.selectedCompletionInfo := None;
     Provider.isCancellationRequested := false;
     Provider.cancelledDuringRoundTrip := true;
     Provider.activeSelections := Some 1%nat;
     Provider.nowAtGate := 5000;
     Provider.nowAtResponse := 5600;
     Provider.visibleInstance := Some (Returned configuration);
     Provider.backend := answering |}.

(** The same call against the failing backend. *)
Definition callFailing : Provider.Call :=
  {| Provider.document := document;
     Provider.position := position;
     Provider.selectedCompletionInfo := None;
     Provider.isCancellationRequested := false;
     Provider.cancelledDuringRoundTrip := false;
     Provider.activeSelections := Some 1%nat;
     Provider.nowAtGate := 5000;
     Provider.nowAtResponse := 5600;
     Provider.visibleInstance := Some (Returned configuration);
     Provider.backend := failing |}.

(** A later call, one column further, at the given time. *)
Definition document2 : TextDocument :=
  {| lines := ["const a = 1;"; "const b = a"]%string;
     eol := JS.nl;
     languageId := "typescript" |}.

Definition callAt (now : Z) : Provider.Call :=
  {| Provider.document := document2;
     Provider.position := {| line := 1; character := 11 |};
     Provider.selectedCompletionInfo := None;
     Provider.isCancellationRequested := false;
     Provider.cancelledDuringRoundTrip := false;
     Provider.activeSelections := Some 1%nat;
     Provider.nowAtGate := now;
     Provider.nowAtResponse := now + 600;
     Provider.visibleInstance := Some (Returned configuration);
     Provider.backend := answering |}.

(** The line prefix [dq a backslash dq b dq]: a string literal that holds an
    escaped quote and is closed. *)
Definition escapedQuotePrefix : string :=
  JS.dq ++ "a\" ++ JS.dq ++ "b" ++ JS.dq.

End Samples.

(* ===================================================================== *)
(** ** Vocabulary for the further properties *)
(* ===================================================================== *)

Module Shape.

(** The character [c] does not occur in [s]. *)
Fixpoint freeOf (c : ascii) (s : string) : bool :=
  match s with
  | EmptyString => true
  | String x r => negb (Ascii.eqb x c) && freeOf c r
  end.



(** The text fragments of a stream, in the order of delivery. *)
Fixpoint streamText (stream : Api.ApiStream) : string :=
  match stream with
  | Api.StreamEnd => ""
  | Api.StreamError => ""
  | Api.StreamChunk (Api.TextChunk t) rest => t ++ streamText rest
  | Api.StreamChunk (Api.UsageChunk _ _) rest => streamText rest
  end.

(** The provider names that select a handler other than the Anthropic one. *)
Definition otherProviders : list string :=
  ["openrouter"; "bedrock"; "vertex"; "openai"; "ollama"; "lmstudio";
   "gemini"; "openai-native"; "deepseek"]%string.

(** The zero-width range at the cursor with the given insert text. *)
Definition singleItem (position : Editor.Position) (insert : string)
  : Provider.InlineCompletionList :=
  {| Provider.items :=
       [ {| Provider.insertText := insert;
            Provider.range :=
              {| Editor.rangeStart := position; Editor.rangeEnd := position |} |} ] |}.

(** The context text a call hands to the client. *)
Definition contextText (c : Provider.Call) : string :=
  Editor.getText (Provider.document c)
    (Lexical.getContextRange (Provider.document c) (Provider.position c)).

(** The text of the document from its start to the cursor. *)
Definition textBeforeCursor (document : Editor.TextDocument)
    (position : Editor.Position) : string :=
  Editor.getText document
    (Editor.newRange {| Editor.line := 0; Editor.character := 0 |} position).

(** A call on the first line of a document, behind blanks only. *)
Definition blankFirstLine : Provider.Call :=
  {| Provider.document :=
       {| Editor.lines := ["   x"]%string; Editor.eol := JS.nl;
          Editor.languageId := "plaintext" |};
     Provider.position := {| Editor.line := 0; Editor.character := 2 |};
     Provider.selectedCompletionInfo := None;
     Provider.isCancellationRequested := false;
     Provider.cancelledDuringRoundTrip := false;
     Provider.activeSelections := None;
     Provider.nowAtGate := 9000;
     Provider.nowAtResponse := 9100;
     Provider.visibleInstance := Some (Returned Samples.configuration);
     Provider.backend := Samples.answering |}.

(** A much later call on a line that holds the completion of
    [Samples.call], indented. *)
Definition acceptedLine : Provider.Call :=
  {| Provider.document :=
       {| Editor.lines := ["const a = 1;"; "  a + 1;"]%string;
          Editor.eol := JS.nl; Editor.languageId := "typescript" |};
     Provider.position := {| Editor.line := 1; Editor.character := 4 |};
     Provider.selectedCompletionInfo := None;
     Provider.isCancellationRequested := false;
     Provider.cancelledDuringRoundTrip := false;
     Provider.activeSelections := Some 1%nat;
     Provider.nowAtGate := 99000;
     Provider.nowAtResponse := 99100;
     Provider.visibleInstance := Some (Returned Samples.configuration);
     Provider.backend := Samples.answering |}.

(** A call whose cursor line lies beyond the end of the document. *)
Definition offDocument : Provider.Call :=
  {| Provider.document := Samples.document;
     Provider.position := {| Editor.line := 7; Editor.character := 0 |};
     Provider.selectedCompletionInfo := None;
     Provider.isCancellationRequested := false;
     Provider.cancelledDuringRoundTrip := false;
     Provider.activeSelections := Some 1%nat;
     Provider.nowAtGate := 5000;
     Provider.nowAtResponse := 5600;
     Provider.visibleInstance := Some (Returned Samples.configuration);
     Provider.backend := Samples.answering |}.

End Shape.

(* ===================================================================== *)
(** * Properties *)
(* ===================================================================== *)

(** ** Facts about the string primitives *)

Lemma indexOf_unfold pat s :
  JS.indexOf pat s =
  if String.prefix pat s then Some O
  else match s with
       | EmptyString => None
       | String _ r => option_map S (JS.indexOf pat r)
       end.
Proof. destruct s; reflexivity. Qed.

Lemma drop_nil n : JS.drop n "" = "".
Proof. destruct n; reflexivity. Qed.

Lemma drop_drop a b s : JS.drop a (JS.drop b s) = JS.drop (b + a) s.
Proof.
  revert s; induction b as [|b IH]; intros s; simpl.
  - reflexivity.
  - destruct s as [|c r]; simpl.
    + apply drop_nil.
    + apply IH.
Qed.

Lemma take_drop n s : (JS.take n s ++ JS.drop n s)%string = s.
Proof.
  revert s; induction n as [|n IH]; intros [|c r]; simpl; try reflexivity.
  now rewrite IH.
Qed.

Lemma indexOf_some_occurs pat s i :
  JS.indexOf pat s = Some i -> Extract.firstAt pat s i.
Proof.
  unfold Extract.firstAt, Extract.occursAt.
  revert i; induction s as [|c r IH]; intros i; rewrite indexOf_unfold.
  - destruct (String.prefix pat "") eqn:P; [|discriminate].
    intros [= <-]. split; [exact P | intros j Hj; lia].
  - destruct (String.prefix pat (String c r)) eqn:P.
    + intros [= <-]. split; [exact P | intros j Hj; lia].
    + destruct (JS.indexOf pat r) as [k|] eqn:E; simpl; [|discriminate].
      intros [= <-]. destruct (IH k eq_refl) as [Hk Hmin].
      split; [exact Hk |].
      intros [|j] Hj Hocc; cbn [JS.drop] in Hocc.
      * congruence.
      * apply (Hmin j); [lia | exact Hocc].
Qed.

Lemma indexOf_none_occurs pat s :
  JS.indexOf pat s = None -> forall i, ~ Extract.occursAt pat s i.
Proof.
  unfold Extract.occursAt.
  induction s as [|c r IH]; rewrite indexOf_unfold.
  - destruct (String.prefix pat "") eqn:P; [discriminate|].
    intros _ i H. rewrite drop_nil in H. congruence.
  - destruct (String.prefix pat (String c r)) eqn:P; [discriminate|].
    destruct (JS.indexOf pat r) eqn:E; simpl; [discriminate|].
    intros _ [|i] H; cbn [JS.drop] in H; [congruence|].
    exact (IH eq_refl i H).
Qed.

Lemma firstAt_indexOf pat s i :
  Extract.firstAt pat s i -> JS.indexOf pat s = Some i.
Proof.
  intros [Hocc Hmin].
  destruct (JS.indexOf pat s) as [k|] eqn:E.
  - destruct (indexOf_some_occurs _ _ _ E) as [Hk Hkmin].
    destruct (Nat.lt_trichotomy k i) as [L|[->|G]].
    + exfalso. exact (Hmin k L Hk).
    + reflexivity.
    + exfalso. exact (Hkmin i G Hocc).
  - exfalso. exact (indexOf_none_occurs _ _ E i Hocc).
Qed.

Lemma indexOf_none_drop pat s k :
  JS.indexOf pat s = None -> JS.indexOf pat (JS.drop k s) = None.
Proof.
  intros E. destruct (JS.indexOf pat (JS.drop k s)) as [i|] eqn:D; [|reflexivity].
  exfalso. destruct (indexOf_some_occurs _ _ _ D) as [H _].
  unfold Extract.occursAt in H. rewrite drop_drop in H.
  exact (indexOf_none_occurs _ _ E _ H).
Qed.

(** ** Extraction *)

Lemma lazyGroup_indexOf s :
  Extract.lazyGroup s =
  option_map (fun j => JS.take j s) (JS.indexOf Extract.CLOSE_TAG s).
Proof.
  induction s as [|c r IH].
  - reflexivity.
  - rewrite indexOf_unfold.
    change (Extract.lazyGroup (String c r))
      with (if String.prefix Extract.CLOSE_TAG (String c r) then Some ""
            else option_map (String c) (Extract.lazyGroup r)).
    destruct (String.prefix Extract.CLOSE_TAG (String c r)); [reflexivity|].
    rewrite IH. destruct (JS.indexOf Extract.CLOSE_TAG r); reflexivity.
Qed.

Lemma matchHere_unfold s :
  Extract.matchHere s =
  if String.prefix Extract.OPEN_TAG s
  then Extract.lazyGroup (JS.drop (String.length Extract.OPEN_TAG) s)
  else None.
Proof. reflexivity. Qed.

Lemma regexMatch_unfold s :
  Extract.regexMatch s =
  match Extract.matchHere s with
  | Some g => Some g
  | None => match s with
            | EmptyString => None
            | String _ r => Extract.regexMatch r
            end
  end.
Proof. destruct s; reflexivity. Qed.

(** When no closing tag lies at or after index 12, no start position
    matches. *)
Lemma regexMatch_none s :
  (forall k, JS.indexOf Extract.CLOSE_TAG
               (JS.drop (String.length Extract.OPEN_TAG + k) s) = None) ->
  Extract.regexMatch s = None.
Proof.
  induction s as [|c r IH]; intros H; rewrite regexMatch_unfold, matchHere_unfold.
  - reflexivity.
  - rewrite lazyGroup_indexOf.
    specialize (H O) as H0. rewrite Nat.add_0_r in H0. rewrite H0.
    destruct (String.prefix Extract.OPEN_TAG (String c r)); simpl option_map; cbv iota;
      apply IH; intros k; specialize (H (S k));
      rewrite Nat.add_succ_r in H; exact H.
Qed.

Lemma regexMatch_twoScan s :
  Extract.regexMatch s =
  match JS.indexOf Extract.OPEN_TAG s with
  | None => None
  | Some i =>
      Extract.lazyGroup (JS.drop (i + String.length Extract.OPEN_TAG) s)
  end.
Proof.
  induction s as [|c r IH].
  - reflexivity.
  - rewrite regexMatch_unfold, matchHere_unfold, indexOf_unfold.
    destruct (String.prefix Extract.OPEN_TAG (String c r)) eqn:P.
    + rewrite Nat.add_0_l.
      destruct (Extract.lazyGroup _) as [g|] eqn:L; [reflexivity|].
      apply regexMatch_none. intros k.
      rewrite lazyGroup_indexOf in L.
      destruct (JS.indexOf Extract.CLOSE_TAG
                  (JS.drop (String.length Extract.OPEN_TAG) (String c r))) eqn:E;
        [discriminate|].
      change (JS.drop (String.length Extract.OPEN_TAG + k) r)
        with (JS.drop (S (String.length Extract.OPEN_TAG + k)) (String c r)).
      replace (S (String.length Extract.OPEN_TAG + k))
        with (String.length Extract.OPEN_TAG + S k)%nat by lia.
      rewrite <- drop_drop. now apply indexOf_none_drop.
    + rewrite IH. destruct (JS.indexOf Extract.OPEN_TAG r); reflexivity.
Qed.

Lemma extractedText_twoScan s : Extract.extractedText s = Extract.twoScan s.
Proof.
  unfold Extract.extractedText, Extract.twoScan.
  rewrite regexMatch_twoScan.
  destruct (JS.indexOf Extract.OPEN_TAG s) as [i|]; [|reflexivity].
  rewrite lazyGroup_indexOf.
  destruct (JS.indexOf Extract.CLOSE_TAG _); reflexivity.
Qed.

(** C4 (extraction correctness).  The extracted completion is the text
    between the first opening tag [<COMPLETION>] and the first closing tag
    [</COMPLETION>] after it; a response in which no opening tag is followed
    by a closing tag yields the empty string; and the response
    ["noise <COMPLETION>foo(bar)</COMPLETION> trailing"] yields ["foo(bar)"]. *)
Theorem extraction_first_match :
  (forall s i j,
      Extract.firstAt Extract.OPEN_TAG s i ->
      Extract.firstAt Extract.CLOSE_TAG (JS.drop (i + String.length Extract.OPEN_TAG) s) j ->
      Extract.extractedText s = JS.take j (JS.drop (i + String.length Extract.OPEN_TAG) s))
  /\ (forall s,
      (forall i j, Extract.occursAt Extract.OPEN_TAG s i ->
                   ~ Extract.occursAt Extract.CLOSE_TAG (JS.drop (i + String.length Extract.OPEN_TAG) s) j) ->
      Extract.extractedText s = "")
  /\ Extract.extractedText "noise <COMPLETION>foo(bar)</COMPLETION> trailing"
     = "foo(bar)".
Proof.
  split; [|split].
  - intros s i j Hi Hj. rewrite extractedText_twoScan. unfold Extract.twoScan.
    rewrite (firstAt_indexOf _ _ _ Hi).
    now rewrite (firstAt_indexOf _ _ _ Hj).
  - intros s H. rewrite extractedText_twoScan. unfold Extract.twoScan.
    destruct (JS.indexOf Extract.OPEN_TAG s) as [i|] eqn:Ei; [|reflexivity].
    destruct (JS.indexOf Extract.CLOSE_TAG (JS.drop (i + String.length Extract.OPEN_TAG) s)) as [j|] eqn:Ej;
      [|reflexivity].
    exfalso. apply (H i j).
    + exact (proj1 (indexOf_some_occurs _ _ _ Ei)).
    + exact (proj1 (indexOf_some_occurs _ _ _ Ej)).
  - reflexivity.
Qed.

Lemma extraction_first_match_witness :
  Extract.extractedText "noise <COMPLETION>foo(bar)</COMPLETION> trailing"
  = JS.take 8 (JS.drop (6 + 12)
                 "noise <COMPLETION>foo(bar)</COMPLETION> trailing")
  /\ Extract.extractedText "foo(bar)</COMPLETION>" = "".
Proof.
  split.
  - apply (proj1 extraction_first_match
             "noise <COMPLETION>foo(bar)</COMPLETION> trailing" 6%nat 8%nat).
    + split; [reflexivity|].
      intros j Hj H. unfold Extract.occursAt in H.
      do 6 (destruct j as [|j]; [discriminate H|]). lia.
    + split; [reflexivity|].
      intros j Hj H. unfold Extract.occursAt in H.
      do 8 (destruct j as [|j]; [discriminate H|]). lia.
  - apply (proj1 (proj2 extraction_first_match) "foo(bar)</COMPLETION>").
    intros i j Hi _.
    exact (indexOf_none_occurs Extract.OPEN_TAG "foo(bar)</COMPLETION>"
             eq_refl i Hi).
Defined.

(** ** The completion client *)

(** Whether draining throws does not depend on the text gathered so far. *)
Lemma drain_threw_any stream :
  forall x y, Api.drain stream x = Threw -> Api.drain stream y = Threw.
Proof.
  induction stream as [| |chunk rest IH]; intros x y H; simpl in *.
  - discriminate H.
  - reflexivity.
  - destruct chunk; eauto.
Qed.

Lemma drain_raises stream :
  Api.Raises stream <-> forall acc, Api.drain stream acc = Threw.
Proof.
  split.
  - induction 1 as [|chunk rest _ IH]; intros acc; simpl.
    + reflexivity.
    + destruct chunk; apply IH.
  - induction stream as [| |chunk rest IH]; intros H.
    + specialize (H ""). discriminate H.
    + constructor.
    + constructor. apply IH. intros acc.
      apply (drain_threw_any rest (match chunk with
                                   | Api.TextChunk t => t
                                   | Api.UsageChunk _ _ => ""
                                   end)).
      specialize (H ""). destruct chunk; exact H.
Qed.

(** C3, as stated, fails: the handler is built and [createMessage] is
    called before the [try] block, so when either throws, the promise of
    [getCompletion] is rejected and no result is returned. *)
Lemma invocation_failure_counterexample :
  ~ (forall backend options,
        exists r, Api.getCompletion backend options = Returned [r]).
Proof.
  intros H.
  destruct (H Samples.unreachable
              (Provider.optionsOf Samples.call "const b = " Samples.configuration))
    as [r Hr].
  discriminate Hr.
Qed.

(** C3 (backend failure isolation, amended).  Every call of [getCompletion]
    whose backend hands back a stream returns normally, with exactly one
    result; when the backend raises an error while that stream is drained,
    the result has the empty text and the detail "Error generating
    completion". *)
Theorem getCompletion_single_result backend options stream :
  Api.streamOf backend options = Returned stream ->
  exists r,
    Api.getCompletion backend options = Returned [r]
    /\ (Api.Raises stream ->
        Api.text r = "" /\ Api.detail r = Some "Error generating completion").
Proof.
  intros S. unfold Api.getCompletion. rewrite S. cbn [bindO].
  destruct (Api.drain stream "") as [t|] eqn:E; simpl.
  - eexists; split; [reflexivity|].
    intros R. apply drain_raises with (acc := "") in R. congruence.
  - eexists; split; [reflexivity|]. intros _. split; reflexivity.
Qed.

Lemma getCompletion_single_result_witness :
  exists r,
    Api.getCompletion Samples.failing
      (Provider.optionsOf Samples.call "const b = " Samples.configuration)
    = Returned [r]
    /\ Api.text r = "" /\ Api.detail r = Some "Error generating completion".
Proof.
  destruct (getCompletion_single_result Samples.failing
              (Provider.optionsOf Samples.call "const b = " Samples.configuration)
              (Api.StreamChunk (Api.TextChunk "<COMPLETION>a") Api.StreamError)
              eq_refl)
    as [r [H1 H2]].
  exists r. split; [exact H1|].
  apply H2. constructor. constructor.
Defined.

(** ** The prompt *)

Lemma take_min n s : JS.take (Nat.min n (String.length s)) s = JS.take n s.
Proof.
  revert s; induction n as [|n IH]; intros [|c r]; simpl; try reflexivity.
  now rewrite IH.
Qed.

Lemma drop_min n s : JS.drop (Nat.min n (String.length s)) s = JS.drop n s.
Proof.
  revert s; induction n as [|n IH]; intros [|c r]; simpl; try reflexivity.
  apply IH.
Qed.

Lemma take_add a b s :
  (JS.take a s ++ JS.take b (JS.drop a s))%string = JS.take (a + b) s.
Proof.
  revert s; induction a as [|a IH]; intros s; simpl.
  - reflexivity.
  - destruct s as [|c r]; simpl.
    + destruct b; reflexivity.
    + now rewrite IH.
Qed.

Lemma clamp_min s z :
  JS.clamp s z = Nat.min (Z.to_nat z) (String.length s).
Proof. unfold JS.clamp, JS.len. lia. Qed.

Lemma substring_from_zero s z : JS.substring s 0 z = JS.take (Z.to_nat z) s.
Proof.
  unfold JS.substring.
  replace (JS.clamp s 0) with O by (unfold JS.clamp, JS.len; lia).
  rewrite Nat.min_0_l, Nat.max_0_l, Nat.sub_0_r. simpl JS.drop.
  rewrite clamp_min. apply take_min.
Qed.

Lemma substringFrom_drop s z : JS.substringFrom s z = JS.drop (Z.to_nat z) s.
Proof. unfold JS.substringFrom. rewrite clamp_min. apply drop_min. Qed.

Lemma orEmpty_id x : Api.orEmpty x = x.
Proof. destruct x; reflexivity. Qed.

Lemma prefix_take options :
  Api.prefix options = JS.take (Api.holeOffset options) (Api.prompt options).
Proof.
  unfold Api.prefix, Api.contextPrefix, Api.lastLine, Api.holeOffset,
    Api.lastLineStart.
  rewrite orEmpty_id, substring_from_zero, substringFrom_drop, substring_from_zero.
  set (n := Z.to_nat (Api.lastLineBreakIndex options + 1)).
  set (rest := JS.drop n (Api.prompt options)).
  rewrite <- (take_min (Z.to_nat (Api.cursorPosition options)) rest).
  rewrite take_add. f_equal. f_equal. unfold JS.len. lia.
Qed.

Lemma suffix_drop options :
  Api.suffix options = JS.drop (Api.holeOffset options) (Api.prompt options).
Proof.
  unfold Api.suffix, Api.lastLine, Api.holeOffset, Api.lastLineStart.
  rewrite substringFrom_drop, substringFrom_drop.
  set (n := Z.to_nat (Api.lastLineBreakIndex options + 1)).
  set (rest := JS.drop n (Api.prompt options)).
  rewrite <- (drop_min (Z.to_nat (Api.cursorPosition options)) rest).
  unfold rest at 2. rewrite drop_drop. f_equal. f_equal. unfold JS.len. lia.
Qed.

Lemma append_empty_r s : (s ++ "")%string = s.
Proof. induction s as [|c r IH]; simpl; [reflexivity | now rewrite IH]. Qed.

Lemma append_assoc_s a b c : ((a ++ b) ++ c)%string = (a ++ (b ++ c))%string.
Proof. induction a as [|x r IH]; simpl; [reflexivity | now rewrite IH]. Qed.

Lemma drop_append a b : JS.drop (String.length a) (a ++ b) = b.
Proof. induction a as [|x r IH]; simpl; [reflexivity | exact IH]. Qed.

Lemma take_append a b : JS.take (String.length a) (a ++ b) = a.
Proof. induction a as [|x r IH]; simpl; [reflexivity | now rewrite IH]. Qed.

Lemma prefix_one_char c x r :
  String.prefix (String c "") (String x r) = Ascii.eqb c x.
Proof.
  cbn [String.prefix]. destruct (ascii_dec c x) as [->|N].
  - rewrite Ascii.eqb_refl. destruct r; reflexivity.
  - apply Ascii.eqb_neq in N. now rewrite N.
Qed.

Lemma lastIndexFrom_free s :
  Shape.freeOf "010" s = true -> forall i, JS.lastIndexFrom JS.nl s i = None.
Proof.
  induction s as [|x r IH]; intros F i.
  - reflexivity.
  - cbn [Shape.freeOf] in F. apply andb_true_iff in F as [Fx Fr].
    apply negb_true_iff in Fx. rewrite Ascii.eqb_sym in Fx.
    cbn [JS.lastIndexFrom]. rewrite (IH Fr).
    unfold JS.nl. now rewrite prefix_one_char, Fx.
Qed.

Lemma lastIndexFrom_last_break cut :
  Shape.freeOf "010" cut = true ->
  forall before i,
    JS.lastIndexFrom JS.nl (before ++ JS.nl ++ cut) i
    = Some (i + Z.of_nat (String.length before)).
Proof.
  intros F. induction before as [|x r IH]; intros i.
  - change ("" ++ JS.nl ++ cut)%string with (String "010" cut).
    cbn [JS.lastIndexFrom]. rewrite (lastIndexFrom_free _ F).
    unfold JS.nl. rewrite prefix_one_char, Ascii.eqb_refl.
    cbn [String.length]. f_equal. lia.
  - change (String x r ++ JS.nl ++ cut)%string
      with (String x (r ++ JS.nl ++ cut)).
    cbn [JS.lastIndexFrom]. rewrite IH. f_equal. cbn [String.length]. lia.
Qed.

Lemma length_append_s a b :
  String.length (a ++ b) = (String.length a + String.length b)%nat.
Proof. induction a as [|x r IH]; simpl; [reflexivity | now rewrite IH]. Qed.

(** The last line feed of a string, if any, cuts it into what comes before,
    the line feed, and a rest without line feed. *)
Lemma lastIndexFrom_split s :
  forall i,
    match JS.lastIndexFrom JS.nl s i with
    | Some j =>
        exists before rest,
          s = (before ++ JS.nl ++ rest)%string
          /\ Shape.freeOf "010" rest = true
          /\ j = i + Z.of_nat (String.length before)
    | None => Shape.freeOf "010" s = true
    end.
Proof.
  induction s as [|x r IH]; intros i.
  - reflexivity.
  - cbn [JS.lastIndexFrom]. specialize (IH (i + 1)).
    destruct (JS.lastIndexFrom JS.nl r (i + 1)) as [j|].
    + destruct IH as (b & rest & -> & F & ->).
      exists (String x b), rest. split; [reflexivity|]. split; [exact F|].
      cbn [String.length]. lia.
    + unfold JS.nl at 1. rewrite prefix_one_char.
      destruct (Ascii.eqb "010" x) eqn:E.
      * apply Ascii.eqb_eq in E. subst x.
        exists ""%string, r. split; [reflexivity|]. split; [exact IH|].
        cbn [String.length]. lia.
      * cbn [Shape.freeOf]. rewrite Ascii.eqb_sym, E. exact IH.
Qed.

(** Every prompt is some text that is empty or ends in a line feed,
    followed by a last line without line feed; the client finds the start
    of that last line. *)
Lemma prompt_last_line options :
  exists before lastLine,
    Api.prompt options = (before ++ lastLine)%string
    /\ (before = ""%string \/ exists b, before = (b ++ JS.nl)%string)
    /\ Shape.freeOf "010" lastLine = true
    /\ Api.lastLineStart options = String.length before.
Proof.
  unfold Api.lastLineStart, Api.lastLineBreakIndex, JS.lastIndexOf.
  pose proof (lastIndexFrom_split (Api.prompt options) 0) as H.
  destruct (JS.lastIndexFrom JS.nl (Api.prompt options) 0) as [j|].
  - destruct H as (b & rest & Hp & F & ->).
    exists (b ++ JS.nl)%string, rest.
    split; [now rewrite append_assoc_s|].
    split; [right; now exists b|]. split; [exact F|].
    rewrite length_append_s. cbn [String.length JS.nl]. lia.
  - exists ""%string, (Api.prompt options). repeat split; auto.
Qed.

Lemma take_append_plus a b k :
  JS.take (String.length a + k) (a ++ b) = (a ++ JS.take k b)%string.
Proof. induction a as [|x r IH]; simpl; [reflexivity | now rewrite IH]. Qed.

Lemma drop_append_plus a b k :
  JS.drop (String.length a + k) (a ++ b) = JS.drop k b.
Proof. induction a as [|x r IH]; simpl; [reflexivity | exact IH]. Qed.

(** C9 (prompt rendering).  The prompt is a function of the context string
    and the cursor offset alone.  The context is cut after its last line
    feed into the lines before the final line and the final line;
    [prefixText] is those lines followed by the final line up to the cursor
    offset, [suffixText] is the final line from the cursor offset on.  The
    prompt is the hole-filler template, then the query block with
    [prefixText], the sentinel [{{FILL_HERE}}] and [suffixText], then the
    closing instruction that ends in the opening completion tag; it is what
    the backend receives as the single user message. *)
Theorem prompt_rendering options :
  exists before lastLine,
    Api.prompt options = (before ++ lastLine)%string
    /\ (before = ""%string \/ exists b, before = (b ++ JS.nl)%string)
    /\ Shape.freeOf "010" lastLine = true
    /\ let prefixText :=
         (before ++ JS.take (Z.to_nat (Api.cursorPosition options)) lastLine)%string in
       let suffixText :=
         JS.drop (Z.to_nat (Api.cursorPosition options)) lastLine in
       Api.fullPrompt options
       = (Api.SYSTEM_MSG
          ++ (JS.nl ++ JS.nl ++ "<QUERY>" ++ JS.nl
              ++ prefixText ++ "{{FILL_HERE}}" ++ suffixText
              ++ JS.nl ++ "</QUERY>" ++ JS.nl
              ++ "TASK: Fill the {{FILL_HERE}} hole. Answer only with the CORRECT completion, and NOTHING ELSE. Do it now."
              ++ JS.nl ++ "<COMPLETION>"))%string
       /\ (forall backend,
             Api.streamOf backend options
             = backend (Api.buildApiHandler Api.hardCodedConfiguration)
                 "You are a HOLE FILLER."
                 [ {| Api.role := "user";
                      Api.content := Api.fullPrompt options |} ])
       /\ (forall cfg,
             Api.fullPrompt (Api.withConfiguration options cfg)
             = Api.fullPrompt options).
Proof.
  destruct (prompt_last_line options) as (before & lastLine & Hp & Hb & F & Hs).
  exists before, lastLine. split; [exact Hp|]. split; [exact Hb|].
  split; [exact F|]. cbv zeta. split; [|split; reflexivity].
  assert (P : Api.prefix options
              = (before
                 ++ JS.take (Z.to_nat (Api.cursorPosition options)) lastLine)%string).
  { rewrite prefix_take. unfold Api.holeOffset. rewrite Hs, Hp, drop_append.
    fold (JS.clamp lastLine (Api.cursorPosition options)).
    rewrite clamp_min, take_append_plus. now rewrite take_min. }
  assert (S : Api.suffix options
              = JS.drop (Z.to_nat (Api.cursorPosition options)) lastLine).
  { rewrite suffix_drop. unfold Api.holeOffset. rewrite Hs, Hp, drop_append.
    fold (JS.clamp lastLine (Api.cursorPosition options)).
    rewrite clamp_min, drop_append_plus. apply drop_min. }
  unfold Api.fullPrompt, Api.CLOSING, Api.SENTINEL. now rewrite P, S.
Qed.

(** C10 (the configuration argument is ignored).  Whatever configuration
    the caller passes, [getCompletion] returns the same; the stream it
    drains always comes from the Anthropic handler built from the
    configuration written in the function; and the provider returns the
    same value and leaves the same state whatever configuration the host
    reports. *)
Theorem configuration_ignored :
  (forall backend options cfg1 cfg2,
      Api.getCompletion backend (Api.withConfiguration options cfg1)
      = Api.getCompletion backend (Api.withConfiguration options cfg2))
  /\ (forall backend options,
      Api.streamOf backend options
      = backend
          {| Api.handlerClass := Api.AnthropicHandler;
             Api.handlerOptions :=
               {| Api.opt_apiModelId := Some "claude-3-5-sonnet-20240620";
                  Api.opt_apiKey := Api.apiKey Api.hardCodedConfiguration;
                  Api.opt_others := [] |} |}
          "You are a HOLE FILLER." (Api.messagesOf options))
  /\ (forall s c cfg1 cfg2,
      let st1 := Provider.provideInlineCompletionItems s
                   (Provider.withApiConfiguration c cfg1) in
      let st2 := Provider.provideInlineCompletionItems s
                   (Provider.withApiConfiguration c cfg2) in
      Provider.result st1 = Provider.result st2
      /\ Provider.after st1 = Provider.after st2
      /\ List.length (Provider.requests st1) = List.length (Provider.requests st2)).
Proof.
  split; [|split].
  - reflexivity.
  - reflexivity.
  - intros s c cfg1 cfg2. cbv zeta.
    unfold Provider.provideInlineCompletionItems,
      Provider.provideInlineCompletionItemsWith.
    cbn [Provider.isCancellationRequested Provider.withApiConfiguration].
    destruct (Provider.isCancellationRequested c); [repeat split|].
    change (Provider.multipleSelections (Provider.withApiConfiguration c cfg1))
      with (Provider.multipleSelections c).
    change (Provider.multipleSelections (Provider.withApiConfiguration c cfg2))
      with (Provider.multipleSelections c).
    destruct (Provider.multipleSelections c); [repeat split|].
    change (Provider.staleSelectedCompletion (Provider.withApiConfiguration c cfg1))
      with (Provider.staleSelectedCompletion c).
    change (Provider.staleSelectedCompletion (Provider.withApiConfiguration c cfg2))
      with (Provider.staleSelectedCompletion c).
    destruct (Provider.staleSelectedCompletion c); [repeat split|].
    cbn [Provider.document Provider.position Provider.nowAtGate
         Provider.withApiConfiguration].
    destruct (Editor.lineAt _ _) as [currentLine|]; [|repeat split].
    destruct (Provider.sameInput _ _); [repeat split|].
    destruct (Provider.sameAsLastCompletion _ _); [repeat split|].
    destruct (Provider.shouldTriggerCompletion _ _ _ _ _) as [[|]|];
      [|repeat split|repeat split].
    unfold Provider.requestCompletion.
    cbn [Provider.visibleInstance Provider.document Provider.position
         Provider.backend Provider.nowAtResponse Provider.withApiConfiguration].
    set (ctx := Editor.getText _ _).
    change (Api.getCompletion (Provider.backend c)
              (Provider.optionsOf (Provider.withApiConfiguration c cfg2) ctx cfg2))
      with (Api.getCompletion (Provider.backend c)
              (Provider.optionsOf (Provider.withApiConfiguration c cfg1) ctx cfg1)).
    destruct (Api.getCompletion _ _) as [[|r rs]|]; repeat split.
Qed.

(** ** The context window *)

Lemma skipn_nth_cons {A : Type} (d : A) (l : list A) (n : nat) :
  (n < List.length l)%nat -> skipn n l = nth n l d :: skipn (S n) l.
Proof.
  revert n; induction l as [|x l IH]; intros n H; simpl in H; [lia|].
  destruct n as [|n]; [reflexivity|].
  cbn [skipn nth]. apply IH. lia.
Qed.

Lemma linesBetween_step document a b :
  0 <= a < b -> b <= Editor.lineCount document ->
  Editor.linesBetween document a b
  = Editor.lineText document a :: Editor.linesBetween document (a + 1) b.
Proof.
  unfold Editor.linesBetween, Editor.lineText, Editor.lineCount. intros Ha Hb.
  rewrite (skipn_nth_cons ""%string) by lia.
  replace (Z.to_nat b - Z.to_nat a)%nat with (S (Z.to_nat b - Z.to_nat (a + 1))) by lia.
  replace (Z.to_nat (a + 1)) with (S (Z.to_nat a)) by lia.
  reflexivity.
Qed.

Lemma linesBetween_empty document a : Editor.linesBetween document a a = [].
Proof. unfold Editor.linesBetween. now rewrite Nat.sub_diag. Qed.

Lemma validatePosition_valid document p :
  Editor.validPosition document p -> Editor.validatePosition document p = p.
Proof.
  intros [Hl Hc]. unfold Editor.validatePosition.
  destruct (Z.ltb_spec (Editor.line p) 0); [lia|].
  destruct (Z.leb_spec (Editor.lineCount document) (Editor.line p)); [lia|].
  destruct p as [l c]; simpl in *. f_equal. lia.
Qed.

Lemma contextRange_ends document position :
  Editor.validPosition document position ->
  Lexical.getContextRange document position
  = {| Editor.rangeStart :=
         {| Editor.line := Z.max 0 (Editor.line position - 3);
            Editor.character := 0 |};
       Editor.rangeEnd := position |}.
Proof.
  intros [Hl Hc]. unfold Lexical.getContextRange, Editor.newRange, Editor.isBefore.
  cbn [Editor.line Editor.character].
  destruct (Z.ltb_spec (Editor.line position) (Z.max 0 (Editor.line position - 3)));
    [lia|].
  destruct (Z.ltb_spec (Editor.character position) 0); [lia|].
  now rewrite andb_false_r.
Qed.

(** C8 (context window).  For a valid cursor position the range starts at
    column 0 of line [max(0, line - 3)], a line number that is never
    negative, and ends at the cursor; its text is the lines from there up to
    the cursor line, the last one cut at the cursor column; at line 0 it is
    the cut first line alone.  Computing it raises no error. *)
Theorem context_window_bounds document position :
  Editor.validPosition document position ->
  let range := Lexical.getContextRange document position in
  Editor.rangeStart range
  = {| Editor.line := Z.max 0 (Editor.line position - 3); Editor.character := 0 |}
  /\ Editor.rangeEnd range = position
  /\ 0 <= Editor.line (Editor.rangeStart range) <= Editor.line position
  /\ Editor.getText document range
     = JS.join (Editor.eol document) (Lexical.windowLines document position)
  /\ (Editor.line position = 0 ->
      Editor.getText document range
      = JS.take (Z.to_nat (Editor.character position))
                (Editor.lineText document 0)).
Proof.
  intros V. cbv zeta. rewrite (contextRange_ends _ _ V).
  cbn [Editor.rangeStart Editor.rangeEnd Editor.line].
  assert (V0 : Editor.validPosition document
                 {| Editor.line := Z.max 0 (Editor.line position - 3);
                    Editor.character := 0 |}).
  { destruct V as [Hl Hc]. split; cbn [Editor.line Editor.character];
      unfold JS.len; lia. }
  assert (T : Editor.getText document
                {| Editor.rangeStart :=
                     {| Editor.line := Z.max 0 (Editor.line position - 3);
                        Editor.character := 0 |};
                   Editor.rangeEnd := position |}
              = JS.join (Editor.eol document) (Lexical.windowLines document position)).
  { unfold Editor.getText. cbn [Editor.rangeStart Editor.rangeEnd].
    rewrite (validatePosition_valid _ _ V), (validatePosition_valid _ _ V0).
    cbn [Editor.line Editor.character]. unfold Lexical.windowLines.
    destruct V as [Hl Hc].
    destruct (Z.eqb_spec (Z.max 0 (Editor.line position - 3)) (Editor.line position))
      as [E|N].
    - rewrite E, linesBetween_empty. reflexivity.
    - rewrite (linesBetween_step document (Z.max 0 (Editor.line position - 3)))
        by lia.
      rewrite substringFrom_drop. reflexivity. }
  split; [reflexivity|]. split; [reflexivity|].
  split; [destruct V; lia|]. split; [exact T|].
  intros L0. rewrite T. unfold Lexical.windowLines.
  rewrite L0. change (Z.max 0 (0 - 3)) with 0. rewrite linesBetween_empty.
  cbn [app JS.join]. apply substring_from_zero.
Qed.

Lemma context_window_bounds_witness :
  Editor.getText Samples.document2
    (Lexical.getContextRange Samples.document2
       {| Editor.line := 1; Editor.character := 7 |})
  = JS.join JS.nl ["const a = 1;"; "const b"]%string
  /\ Editor.getText Samples.document2
       (Lexical.getContextRange Samples.document2
          {| Editor.line := 0; Editor.character := 5 |})
     = "const".
Proof.
  split.
  - apply (context_window_bounds Samples.document2
             {| Editor.line := 1; Editor.character := 7 |}).
    unfold Editor.validPosition, Editor.lineCount, Editor.lineText, JS.len.
    simpl. lia.
  - refine (proj2 (proj2 (proj2 (proj2
              (context_window_bounds Samples.document2
                 {| Editor.line := 0; Editor.character := 5 |} _)))) eq_refl).
    unfold Editor.validPosition, Editor.lineCount, Editor.lineText, JS.len.
    simpl. lia.
Defined.

(** ** The string guard *)

Example escapedQuotePrefix_chars :
  Samples.escapedQuotePrefix
  = String "034" (String "a" (String "\" (String "034" (String "b" (String "034" ""))))).
Proof. reflexivity. Qed.

(** The escape test.  On the line prefix made of a double quote, [a], a
    backslash, a double quote, [b] and a double quote, the described scan
    ends outside a string (the middle quote is escaped), while [isInString]
    answers [true]: its escape test reads the last character of the whole
    prefix, not the character before the quote. *)
Theorem isInString_escape_divergence :
  Lexical.isInString Samples.escapedQuotePrefix = true
  /\ Lexical.specInString Samples.escapedQuotePrefix = false.
Proof. split; reflexivity. Qed.

(** What the loop computes.  Once a quote has opened, only quotes of that
    kind are looked at, and they toggle unless the whole prefix ends in a
    backslash. *)
Lemma scanQuotes_opened whole q rest :
  forall b,
    Lexical.scanQuotes whole rest b (Some q)
    = if Lexical.isBackslash (Lexical.lastChar whole) then b
      else xorb b (Nat.odd (Lexical.countChar q rest)).
Proof.
  destruct (Lexical.isBackslash (Lexical.lastChar whole)) eqn:B;
    induction rest as [|c r IH]; intros b; simpl; rewrite ?andb_false_r, ?B;
    simpl.
  - reflexivity.
  - destruct (Ascii.eqb c q); apply IH.
  - now rewrite xorb_false_r.
  - destruct (Ascii.eqb c q); rewrite IH; [|reflexivity].
    rewrite Nat.odd_succ, <- Nat.negb_odd.
    destruct b, (Nat.odd (Lexical.countChar q r)); reflexivity.
Qed.

Lemma scanQuotes_closed whole rest :
  Lexical.scanQuotes whole rest false None
  = match Lexical.firstQuote rest with
    | None => false
    | Some q =>
        Lexical.isBackslash (Lexical.lastChar whole)
        || Nat.odd (Lexical.countChar q rest)
    end.
Proof.
  induction rest as [|c r IH]; simpl.
  - reflexivity.
  - destruct (Lexical.isQuote c) eqn:Q; simpl.
    + rewrite scanQuotes_opened, Ascii.eqb_refl, Nat.odd_succ, <- Nat.negb_odd.
      destruct (Lexical.isBackslash _); reflexivity.
    + rewrite IH. destruct (Lexical.firstQuote r) as [q|] eqn:F; [|reflexivity].
      destruct (Ascii.eqb c q) eqn:E; [|reflexivity].
      apply Ascii.eqb_eq in E. subst c.
      assert (Lexical.isQuote q = true) as Hq.
      { clear -F. induction r as [|x r IHr]; simpl in F; [discriminate|].
        destruct (Lexical.isQuote x) eqn:X; [now injection F as <-|auto]. }
      congruence.
Qed.

(** X14.  [isInString] in closed form: it answers [true] exactly when the
    prefix holds a quote and either ends in a backslash or holds an odd
    number of quotes of the kind of its first quote. *)
Lemma isInString_closed_form linePrefix :
  Lexical.isInString linePrefix
  = match Lexical.firstQuote linePrefix with
    | None => false
    | Some q =>
        Lexical.isBackslash (Lexical.lastChar linePrefix)
        || Nat.odd (Lexical.countChar q linePrefix)
    end.
Proof. apply scanQuotes_closed. Qed.











(** ** The gate *)

Lemma lineAt_valid document position :
  Editor.validPosition document position ->
  Editor.lineAt document (Editor.line position)
  = Returned (Editor.lineText document (Editor.line position)).
Proof.
  intros [Hl _]. unfold Editor.lineAt.
  destruct (Z.ltb_spec (Editor.line position) 0); [lia|].
  destruct (Z.leb_spec (Editor.lineCount document) (Editor.line position)); [lia|].
  reflexivity.
Qed.

Lemma collectPrevLines_returns document count :
  forall i, 0 <= i -> i + Z.of_nat count <= Editor.lineCount document ->
  exists l, Lexical.collectPrevLines document i count = Returned l.
Proof.
  induction count as [|k IH]; intros i H0 H1; simpl.
  - now exists [].
  - unfold Editor.lineAt.
    destruct (Z.ltb_spec i 0); [lia|].
    destruct (Z.leb_spec (Editor.lineCount document) i); [lia|].
    simpl. destruct (IH (i + 1)) as [l ->]; [lia|lia|].
    simpl. eexists; reflexivity.
Qed.

Lemma prevLines_returns document position :
  Editor.validPosition document position ->
  exists l, Lexical.prevLines document position = Returned l.
Proof.
  intros [Hl _]. unfold Lexical.prevLines.
  apply collectPrevLines_returns; lia.
Qed.

Lemma isInComment_returns document position :
  Editor.validPosition document position ->
  exists b, Lexical.isInComment document position = Returned b.
Proof.
  intros V. unfold Lexical.isInComment. rewrite (lineAt_valid _ _ V). simpl.
  destruct (JS.includes _ _); eexists; reflexivity.
Qed.

(** With a valid position the gate is the rate limit followed by the
    contextual allowance; the comment and string guards only sit on paths
    that deny anyway. *)
Lemma shouldTriggerCompletion_valid s c :
  Editor.validPosition (Provider.document c) (Provider.position c) ->
  Provider.shouldTriggerCompletion s (Provider.nowAtGate c)
    (Provider.document c) (Provider.position c)
    (Provider.inText (Provider.currentInput c))
  = Returned (negb (Provider.nowAtGate c - Provider.lastTriggerTime s
                    <? Provider.TRIGGER_DELAY)
              && Provider.allowedByContext c).
Proof.
  intros V. unfold Provider.shouldTriggerCompletion, Provider.allowedByContext.
  destruct (_ <? Provider.TRIGGER_DELAY); [reflexivity|].
  destruct (prevLines_returns _ _ V) as [prev ->].
  destruct (isInComment_returns _ _ V) as [b ->]. simpl.
  destruct (JS.seq _ ""); simpl.
  - destruct (Lexical.someNonEmpty prev); [reflexivity|].
    destruct b; [reflexivity|]. destruct (Lexical.isInString _); reflexivity.
  - reflexivity.
Qed.

Section ProviderFacts.

Variable client : Api.Backend -> Api.CompletionOptions
                  -> Outcome (list Api.CompletionResult).

Let provide := Provider.provideInlineCompletionItemsWith client.

Lemma refused_at_entry s c :
  Provider.refusedAtEntry c = true -> provide s c = Provider.finish None s.
Proof.
  unfold provide, Provider.provideInlineCompletionItemsWith, Provider.refusedAtEntry.
  destruct (Provider.isCancellationRequested c); [reflexivity|].
  destruct (Provider.multipleSelections c); [reflexivity|].
  destruct (Provider.staleSelectedCompletion c); [reflexivity|discriminate].
Qed.

(** The body of the method once the entry checks have passed. *)
Lemma entry_passed_unfold s c :
  Provider.refusedAtEntry c = false ->
  Editor.validPosition (Provider.document c) (Provider.position c) ->
  provide s c =
  if Provider.sameInput (Provider.lastInput s) (Provider.currentInput c)
  then Provider.finish (Provider.lastCompetionList s) s
  else
    let s1 := Provider.setLastInput s (Provider.currentInput c) in
    if Provider.sameAsLastCompletion s
         (Editor.lineText (Provider.document c) (Editor.line (Provider.position c)))
    then Provider.finish (Provider.lastCompetionList s) s1
    else if negb (Provider.nowAtGate c - Provider.lastTriggerTime s
                  <? Provider.TRIGGER_DELAY)
            && Provider.allowedByContext c
         then Provider.requestCompletion client s1 c
         else Provider.finish None s1.
Proof.
  intros R V.
  unfold provide, Provider.provideInlineCompletionItemsWith.
  unfold Provider.refusedAtEntry in R.
  apply orb_false_iff in R as [R R3]. apply orb_false_iff in R as [R1 R2].
  rewrite R1, R2, R3, (lineAt_valid _ _ V).
  fold (Provider.currentInput c).
  destruct (Provider.sameInput _ _); [reflexivity|]. cbv zeta.
  change (Provider.sameAsLastCompletion
            (Provider.setLastInput s (Provider.currentInput c)))
    with (Provider.sameAsLastCompletion s).
  destruct (Provider.sameAsLastCompletion s _); [reflexivity|].
  change (JS.substring
            (Editor.lineText (Provider.document c) (Editor.line (Provider.position c)))
            0 (Editor.character (Provider.position c)))
    with (Provider.inText (Provider.currentInput c)).
  rewrite (shouldTriggerCompletion_valid _ c V).
  change (Provider.lastTriggerTime
            (Provider.setLastInput s (Provider.currentInput c)))
    with (Provider.lastTriggerTime s).
  destruct (negb _ && _); reflexivity.
Qed.

Lemma recordTexts_fields s rs :
  Provider.lastTriggerTime (Provider.recordTexts s rs) = Provider.lastTriggerTime s
  /\ Provider.lastInput (Provider.recordTexts s rs) = Provider.lastInput s
  /\ Provider.lastCompetionList (Provider.recordTexts s rs)
     = Provider.lastCompetionList s.
Proof.
  unfold Provider.recordTexts. revert s.
  induction rs as [|r rs IH]; intros s; simpl.
  - repeat split.
  - destruct (IH (Provider.setLastCompletionText s (Api.text r))) as [A [B C]].
    rewrite A, B, C. repeat split.
Qed.

Lemma recordTexts_last s r rs :
  Provider.lastCompletionText (Provider.recordTexts s (r :: rs))
  = Some (last (map Api.text (r :: rs)) ""%string).
Proof.
  unfold Provider.recordTexts. revert s r.
  induction rs as [|r' rs IH]; intros s r.
  - reflexivity.
  - change (fold_left _ (r :: r' :: rs) s)
      with (fold_left
              (fun acc completion =>
                 Provider.setLastCompletionText acc (Api.text completion))
              (r' :: rs) (Provider.setLastCompletionText s (Api.text r))).
    rewrite IH. reflexivity.
Qed.

(** What the [try] block does to the fields, by the outcome of the client. *)
Lemma requestCompletion_after s c :
  let st := Provider.requestCompletion client s c in
  Provider.lastInput (Provider.after st) = Provider.lastInput s
  /\ ((Provider.after st = s /\ Provider.result st = Returned None)
      \/ exists l, Provider.result st = Returned (Some l)
                   /\ Provider.lastCompetionList (Provider.after st) = Some l).
Proof.
  cbv zeta. unfold Provider.requestCompletion.
  destruct (Provider.visibleInstance c) as [[cfg|]|];
    try (split; [reflexivity | left; split; reflexivity]).
  destruct (client _ _) as [[|r rs]|];
    try (split; [reflexivity | left; split; reflexivity]).
  split.
  - cbn [Provider.after Provider.lastInput Provider.setLastCompetionList].
    now rewrite (proj1 (proj2 (recordTexts_fields _ _))).
  - right. eexists. split; reflexivity.
Qed.

(** After a call that passed the entry checks the remembered input is the
    input of that call. *)
Lemma entry_passed_records_input s c :
  Provider.refusedAtEntry c = false ->
  Editor.validPosition (Provider.document c) (Provider.position c) ->
  Provider.lastInput (Provider.after (provide s c))
  = Some (Provider.currentInput c).
Proof.
  intros R V. rewrite (entry_passed_unfold s c R V).
  destruct (Provider.sameInput _ _) eqn:E.
  - cbn [Provider.after Provider.finish].
    unfold Provider.sameInput in E.
    destruct (Provider.lastInput s) as [l|]; [|discriminate].
    apply andb_true_iff in E as [E E3]. apply andb_true_iff in E as [E1 E2].
    apply Z.eqb_eq in E1, E2. apply String.eqb_eq in E3.
    destruct l as [a b t]; cbn in *. subst. reflexivity.
  - cbv zeta. destruct (Provider.sameAsLastCompletion s _); [reflexivity|].
    destruct (negb _ && _); [|reflexivity].
    now rewrite (proj1 (requestCompletion_after _ c)).
Qed.

Lemma sameInput_refl i : Provider.sameInput (Some i) i = true.
Proof.
  unfold Provider.sameInput, JS.seq.
  now rewrite !Z.eqb_refl, String.eqb_refl.
Qed.

(** A batch that a call returns is the batch the cache holds afterwards. *)
Lemma returned_batch_cached s c l :
  Provider.refusedAtEntry c = false ->
  Editor.validPosition (Provider.document c) (Provider.position c) ->
  Provider.result (provide s c) = Returned (Some l) ->
  Provider.lastCompetionList (Provider.after (provide s c)) = Some l.
Proof.
  intros R V. rewrite (entry_passed_unfold s c R V).
  destruct (Provider.sameInput _ _);
    [cbn [Provider.result Provider.finish Provider.after]; now intros [= ->]|].
  cbv zeta.
  destruct (Provider.sameAsLastCompletion s _);
    [cbn [Provider.result Provider.finish Provider.after
          Provider.lastCompetionList Provider.setLastInput];
     now intros [= ->]|].
  destruct (negb _ && _); [|discriminate].
  destruct (requestCompletion_after
              (Provider.setLastInput s (Provider.currentInput c)) c)
    as [_ [[_ ->]|[l' [-> H]]]]; [discriminate|].
  now intros [= <-].
Qed.

End ProviderFacts.

(** ** Cancellation *)

(** C7, as stated, fails: the token raised while the backend is awaited is
    never read, so the call stores and returns its batch. *)
Lemma cancellation_during_round_trip_counterexample :
  ~ (forall s c,
        Provider.isCancellationRequested c || Provider.cancelledDuringRoundTrip c
        = true ->
        Provider.result (Provider.provideInlineCompletionItems s c) = Returned None
        /\ Provider.after (Provider.provideInlineCompletionItems s c) = s).
Proof.
  intros H.
  destruct (H Provider.initial Samples.cancelledLater eq_refl) as [H1 _].
  vm_compute in H1. discriminate H1.
Qed.

(** C7 (cancellation, amended).  When the cancellation signal is already
    raised as the call starts, the call returns [undefined], issues no
    backend call and leaves every field of the session state as it was. *)
Theorem cancelled_at_entry_is_inert s c :
  Provider.isCancellationRequested c = true ->
  let st := Provider.provideInlineCompletionItems s c in
  Provider.result st = Returned None
  /\ Provider.after st = s
  /\ Provider.requests st = [].
Proof.
  intros H. cbv zeta.
  unfold Provider.provideInlineCompletionItems,
    Provider.provideInlineCompletionItemsWith.
  rewrite H. repeat split.
Qed.

Lemma cancelled_at_entry_is_inert_witness :
  Provider.result
    (Provider.provideInlineCompletionItems Provider.initial Samples.cancelledAtEntry)
  = Returned None
  /\ Provider.after
       (Provider.provideInlineCompletionItems Provider.initial Samples.cancelledAtEntry)
     = Provider.initial
  /\ Provider.requests
       (Provider.provideInlineCompletionItems Provider.initial Samples.cancelledAtEntry)
     = [].
Proof.
  apply (cancelled_at_entry_is_inert Provider.initial Samples.cancelledAtEntry).
  reflexivity.
Defined.

(** ** Replay of a repeated input *)

Lemma fingerprint_currentInput c1 c2 :
  Provider.fingerprint c1 = Provider.fingerprint c2 ->
  Provider.currentInput c1 = Provider.currentInput c2.
Proof.
  unfold Provider.fingerprint, Provider.currentInput.
  intros [= H1 H2 H3]. now rewrite H3, H1, H2.
Qed.

(** C1, as stated, fails: a first call that is refused at entry (here: the
    token is already raised) does not record its input, so the second call
    with the same fingerprint goes to the backend. *)
Lemma replay_counterexample :
  ~ (forall s c1 c2,
        Provider.fingerprint c1 = Provider.fingerprint c2 ->
        let st1 := Provider.provideInlineCompletionItems s c1 in
        let st2 := Provider.provideInlineCompletionItems (Provider.after st1) c2 in
        Provider.requests st2 = []
        /\ Provider.result st2
           = Returned (Provider.lastCompetionList (Provider.after st1))).
Proof.
  intros H.
  destruct (H Provider.initial Samples.cancelledAtEntry Samples.call eq_refl)
    as [H1 _].
  vm_compute in H1. discriminate H1.
Qed.

(** C1 (replay, amended).  Two calls in a row with the same line, character
    and line prefix, the first of which passes the entry checks: the second
    call issues no backend call; if it passes the entry checks too, it
    returns exactly the batch the cache holds after the first call and
    changes nothing, and that batch is the one the first call returned
    whenever the first call returned a batch. *)
Theorem replay_of_same_fingerprint s c1 c2 :
  Provider.fingerprint c1 = Provider.fingerprint c2 ->
  Provider.refusedAtEntry c1 = false ->
  Editor.validPosition (Provider.document c1) (Provider.position c1) ->
  Editor.validPosition (Provider.document c2) (Provider.position c2) ->
  let st1 := Provider.provideInlineCompletionItems s c1 in
  let st2 := Provider.provideInlineCompletionItems (Provider.after st1) c2 in
  Provider.requests st2 = []
  /\ (Provider.refusedAtEntry c2 = false ->
      Provider.result st2 = Returned (Provider.lastCompetionList (Provider.after st1))
      /\ Provider.after st2 = Provider.after st1
      /\ forall l, Provider.result st1 = Returned (Some l) ->
                   Provider.result st2 = Returned (Some l)).
Proof.
  intros F R1 V1 V2. cbv zeta. unfold Provider.provideInlineCompletionItems.
  pose proof (entry_passed_records_input Api.getCompletion s c1 R1 V1) as L.
  rewrite (fingerprint_currentInput _ _ F) in L.
  destruct (Provider.refusedAtEntry c2) eqn:R2.
  - rewrite (refused_at_entry _ _ c2 R2). split; [reflexivity | discriminate].
  - rewrite (entry_passed_unfold _ _ c2 R2 V2), L, sameInput_refl.
    split; [reflexivity|]. intros _. split; [reflexivity|]. split; [reflexivity|].
    intros l Hl. cbn [Provider.result Provider.finish]. f_equal.
    exact (returned_batch_cached _ s c1 l R1 V1 Hl).
Qed.

Lemma replay_of_same_fingerprint_witness :
  let st1 := Provider.provideInlineCompletionItems Provider.initial Samples.call in
  let st2 := Provider.provideInlineCompletionItems (Provider.after st1)
               Samples.cancelledLater in
  Provider.requests st2 = []
  /\ Provider.result st2 = Returned (Provider.lastCompetionList (Provider.after st1))
  /\ Provider.result st2 = Provider.result st1.
Proof.
  cbv zeta.
  refine (let H := replay_of_same_fingerprint Provider.initial Samples.call
                     Samples.cancelledLater eq_refl eq_refl _ _ in
          conj (proj1 H)
            (conj (proj1 (proj2 H eq_refl))
               (proj2 (proj2 (proj2 H eq_refl)) _ eq_refl))).
  - unfold Editor.validPosition, Editor.lineCount, Editor.lineText, JS.len.
    simpl. lia.
  - unfold Editor.validPosition, Editor.lineCount, Editor.lineText, JS.len.
    simpl. lia.
Defined.

(** The replay can hand out a batch that the first of the two calls did not
    return: a first call stopped by the rate limit returns [undefined], and
    the second one then returns the older batch still in the cache. *)
Example replay_returns_older_batch :
  let s0 := Provider.after
              (Provider.provideInlineCompletionItems Provider.initial Samples.call) in
  let st1 := Provider.provideInlineCompletionItems s0 (Samples.callAt 5700) in
  let st2 := Provider.provideInlineCompletionItems (Provider.after st1)
               (Samples.callAt 5900) in
  Provider.result st1 = Returned None
  /\ Provider.result st2 = Returned (Provider.lastCompetionList s0)
  /\ Provider.batchNonEmpty s0 = true.
Proof. vm_compute. repeat split. Qed.

(** ** The rate limit *)

Lemma getCompletion_one backend options stream :
  Api.streamOf backend options = Returned stream ->
  exists r, Api.getCompletion backend options = Returned [r].
Proof.
  intros S. unfold Api.getCompletion. rewrite S. cbn [bindO].
  destruct (Api.drain _ _); simpl; eexists; reflexivity.
Qed.

Lemma getCompletion_outcomes backend options :
  Api.getCompletion backend options = Threw
  \/ exists r, Api.getCompletion backend options = Returned [r].
Proof.
  destruct (Api.streamOf backend options) as [stream|] eqn:S.
  - right. exact (getCompletion_one backend options stream S).
  - left. unfold Api.getCompletion. now rewrite S.
Qed.

Lemma eligible_unfold s c :
  Provider.eligible s c ->
  Provider.provideInlineCompletionItems s c =
  if negb (Provider.nowAtGate c - Provider.lastTriggerTime s
           <? Provider.TRIGGER_DELAY)
  then Provider.requestCompletion Api.getCompletion
         (Provider.setLastInput s (Provider.currentInput c)) c
  else Provider.finish None (Provider.setLastInput s (Provider.currentInput c)).
Proof.
  intros (V & R & I & L & A). unfold Provider.provideInlineCompletionItems.
  rewrite (entry_passed_unfold _ s c R V), I. cbv zeta. rewrite L, A.
  now rewrite andb_true_r.
Qed.



(** In the older copy the allowances come before the rate limit: a trigger
    with context passes its gate however early it arrives, and the rate
    limit only ever stops a trigger that would be denied anyway. *)
Lemma legacy_gate_ignores_rate_limit s c :
  Editor.validPosition (Provider.document c) (Provider.position c) ->
  Legacy.shouldTriggerCompletion s (Provider.nowAtGate c)
    (Provider.document c) (Provider.position c)
    (Provider.inText (Provider.currentInput c))
  = Returned (Provider.allowedByContext c).
Proof.
  intros V. unfold Legacy.shouldTriggerCompletion, Provider.allowedByContext.
  destruct (prevLines_returns _ _ V) as [prev ->].
  destruct (isInComment_returns _ _ V) as [b ->]. simpl.
  destruct (JS.seq _ ""); simpl; [|reflexivity].
  destruct (Lexical.someNonEmpty prev); [reflexivity|].
  destruct (_ <? Legacy.TRIGGER_DELAY); [reflexivity|].
  destruct b; [reflexivity|]. destruct (Lexical.isInString _); reflexivity.
Qed.

Example legacy_proceeds_early :
  Provider.requests
    (Provider.provideInlineCompletionItems
       (Provider.setLastTriggerTime Provider.initial 4900) Samples.call) = []
  /\ List.length
       (Legacy.requests
          (Legacy.provideInlineCompletionItems
             {| Legacy.lastTriggerTime := 4900 |} Samples.call)) = 1%nat.
Proof. split; reflexivity. Qed.



Lemma sample_eligible_first : Provider.eligible Provider.initial Samples.call.
Proof.
  unfold Provider.eligible, Editor.validPosition, Editor.lineCount,
    Editor.lineText, JS.len.
  repeat split; try reflexivity; simpl; lia.
Qed.



(** ** The cached batch *)

(** C2, as stated, fails: when the backend stream breaks, the client still
    returns one result, with empty text, and the provider caches a batch of
    one item for it. *)
Lemma cache_batch_counterexample :
  ~ (forall calls,
        Provider.CacheBatchClaim (Provider.run Provider.initial calls)).
Proof.
  intros H.
  destruct (H [Samples.callFailing] eq_refl) as [results [H1 H2]].
  vm_compute in H1. injection H1 as <-.
  vm_compute in H2. discriminate H2.
Qed.

Section CacheFacts.

Variable client : Api.Backend -> Api.CompletionOptions
                  -> Outcome (list Api.CompletionResult).

Lemma lastNonEmpty_app log1 log2 :
  Provider.lastNonEmpty (log1 ++ log2)
  = match Provider.lastNonEmpty log2 with
    | Some rs => Some rs
    | None => Provider.lastNonEmpty log1
    end.
Proof.
  induction log1 as [|e log1 IH]; simpl.
  - destruct (Provider.lastNonEmpty log2); reflexivity.
  - rewrite IH. destruct (Provider.lastNonEmpty log2); reflexivity.
Qed.

Lemma textsOf_items position rs :
  Provider.textsOf {| Provider.items := map (Provider.itemOf position) rs |}
  = map Api.text rs.
Proof.
  unfold Provider.textsOf. cbn [Provider.items]. rewrite map_map.
  apply map_ext. reflexivity.
Qed.

Lemma requestCompletion_cache s c :
  let st := Provider.requestCompletion client s c in
  Provider.cacheFollows s (Provider.after st)
    (map (client (Provider.backend c)) (Provider.requests st)).
Proof.
  cbv zeta. unfold Provider.requestCompletion, Provider.cacheFollows.
  destruct (Provider.visibleInstance c) as [[cfg|]|];
    try (split; reflexivity).
  destruct (client _ _) as [[|r rs]|] eqn:E;
    cbn [Provider.requests Provider.after map]; rewrite E;
    cbn [Provider.lastNonEmpty]; try (split; reflexivity).
  split.
  - cbn [Provider.lastCompetionList Provider.setLastCompetionList option_map].
    f_equal. exact (textsOf_items (Provider.position c) (r :: rs)).
  - cbn [Provider.lastCompletionText Provider.setLastCompetionList].
    exact (recordTexts_last _ r rs).
Qed.

Lemma step_cache s c :
  let st := Provider.provideInlineCompletionItemsWith client s c in
  Provider.cacheFollows s (Provider.after st)
    (map (client (Provider.backend c)) (Provider.requests st)).
Proof.
  cbv zeta. unfold Provider.provideInlineCompletionItemsWith.
  destruct (Provider.isCancellationRequested c); [split; reflexivity|].
  destruct (Provider.multipleSelections c); [split; reflexivity|].
  destruct (Provider.staleSelectedCompletion c); [split; reflexivity|].
  destruct (Editor.lineAt _ _) as [currentLine|]; [|split; reflexivity].
  destruct (Provider.sameInput _ _); [split; reflexivity|]. cbv zeta.
  destruct (Provider.sameAsLastCompletion _ _); [split; reflexivity|].
  destruct (Provider.shouldTriggerCompletion _ _ _ _ _) as [[|]|];
    try (split; reflexivity).
  match goal with
  | |- Provider.cacheFollows _ (Provider.after (Provider.requestCompletion _ ?s1 _)) _ =>
      pose proof (requestCompletion_cache s1 c) as H
  end.
  unfold Provider.cacheFollows in *. exact H.
Qed.

Lemma run_cache calls :
  forall s0,
    Provider.cacheFollows s0 (fst (Provider.runWith client s0 calls))
      (snd (Provider.runWith client s0 calls)).
Proof.
  induction calls as [|c rest IH]; intros s0.
  - split; reflexivity.
  - cbn [Provider.runWith].
    pose proof (step_cache s0 c) as Hc. cbv zeta in Hc.
    specialize (IH (Provider.after
                      (Provider.provideInlineCompletionItemsWith client s0 c))).
    destruct (Provider.runWith client _ rest) as [s' log].
    cbn [fst snd] in *. unfold Provider.cacheFollows in *.
    rewrite lastNonEmpty_app.
    destruct (Provider.lastNonEmpty log) as [rs|]; [exact IH|].
    destruct IH as [I1 I2]. rewrite I1, I2. exact Hc.
Qed.

Lemma empty_reply_leaves_cache s c options :
  let st := Provider.provideInlineCompletionItemsWith client s c in
  Provider.requests st = [options] ->
  client (Provider.backend c) options = Returned [] ->
  Provider.lastCompetionList (Provider.after st) = Provider.lastCompetionList s
  /\ Provider.lastCompletionText (Provider.after st) = Provider.lastCompletionText s
  /\ Provider.lastTriggerTime (Provider.after st) = Provider.lastTriggerTime s
  /\ Provider.result st = Returned None.
Proof.
  cbv zeta. unfold Provider.provideInlineCompletionItemsWith.
  destruct (Provider.isCancellationRequested c); [discriminate|].
  destruct (Provider.multipleSelections c); [discriminate|].
  destruct (Provider.staleSelectedCompletion c); [discriminate|].
  destruct (Editor.lineAt _ _) as [currentLine|]; [|discriminate].
  destruct (Provider.sameInput _ _); [discriminate|]. cbv zeta.
  destruct (Provider.sameAsLastCompletion _ _); [discriminate|].
  destruct (Provider.shouldTriggerCompletion _ _ _ _ _) as [[|]|];
    try discriminate.
  unfold Provider.requestCompletion.
  destruct (Provider.visibleInstance c) as [[cfg|]|]; try discriminate.
  destruct (client _ _) as [[|r rs]|] eqn:E.
  - intros _ _. repeat split.
  - intros [= <-] E'. rewrite E in E'. discriminate E'.
  - intros [= <-] E'. rewrite E in E'. discriminate E'.
Qed.

End CacheFacts.

(** C2 (cached batch, amended).  In every session that starts from a fresh
    provider, whatever the client returns: the cache holds a batch only if
    some backend call returned at least one result, and then its items carry,
    one for one, the texts (empty ones included) of the most recent such
    call, the last of which is [lastCompletionText]; a backend call that
    yields zero results makes the call return [undefined] and leaves
    [lastCompetionList], [lastCompletionText] and [lastTriggerTime]
    unchanged. *)
Theorem cache_batch_invariant client :
  (forall calls,
      let session := Provider.runWith client Provider.initial calls in
      match Provider.lastNonEmpty (snd session) with
      | Some results =>
          results <> []
          /\ option_map Provider.textsOf (Provider.lastCompetionList (fst session))
             = Some (map Api.text results)
          /\ Provider.lastCompletionText (fst session)
             = Some (last (map Api.text results) ""%string)
      | None =>
          Provider.lastCompetionList (fst session) = None
          /\ Provider.lastCompletionText (fst session) = None
      end)
  /\ (forall s c options,
      let st := Provider.provideInlineCompletionItemsWith client s c in
      Provider.requests st = [options] ->
      client (Provider.backend c) options = Returned [] ->
      Provider.lastCompetionList (Provider.after st) = Provider.lastCompetionList s
      /\ Provider.lastCompletionText (Provider.after st)
         = Provider.lastCompletionText s
      /\ Provider.lastTriggerTime (Provider.after st) = Provider.lastTriggerTime s
      /\ Provider.result st = Returned None).
Proof.
  split.
  - intros calls. cbv zeta.
    pose proof (run_cache client calls Provider.initial) as H.
    unfold Provider.cacheFollows in H.
    destruct (Provider.lastNonEmpty _) as [rs|] eqn:E; [|exact H].
    split; [|exact H].
    clear H. revert rs E.
    generalize (snd (Provider.runWith client Provider.initial calls)).
    intros log. induction log as [|e log IH]; intros rs; simpl.
    + discriminate.
    + destruct (Provider.lastNonEmpty log) as [rs'|].
      * intros [= <-]. now apply IH.
      * destruct e as [[|r l]|]; try discriminate. now intros [= <-].
  - exact (empty_reply_leaves_cache client).
Qed.

Lemma cache_batch_invariant_witness :
  Provider.result
    (Provider.provideInlineCompletionItemsWith (fun _ _ => Returned [])
       Provider.initial Samples.call)
  = Returned None.
Proof.
  refine (proj2 (proj2 (proj2
            (proj2 (cache_batch_invariant (fun _ _ => Returned []))
               Provider.initial Samples.call _ eq_refl eq_refl)))).
Defined.

(* ===================================================================== *)
(** * Further properties of the provider and the client *)
(* ===================================================================== *)

Lemma sample_valid_position :
  Editor.validPosition (Provider.document Samples.call)
    (Provider.position Samples.call).
Proof.
  unfold Editor.validPosition, Editor.lineCount, Editor.lineText, JS.len.
  simpl. lia.
Qed.

(** ** The gate *)



(** X2.  In the older copy the stored trigger time never matters: at a
    valid position two calls that differ only in the state return the same
    value and issue the same requests, and the state afterwards is either
    the one before or the time of the response. *)
Theorem legacy_state_is_irrelevant s s' c :
  Editor.validPosition (Provider.document c) (Provider.position c) ->
  let st := Legacy.provideInlineCompletionItems s c in
  let st' := Legacy.provideInlineCompletionItems s' c in
  Legacy.result st = Legacy.result st'
  /\ Legacy.requests st = Legacy.requests st'
  /\ (Legacy.after st = s
      \/ Legacy.after st = {| Legacy.lastTriggerTime := Provider.nowAtResponse c |}).
Proof.
  intros V. cbv zeta. unfold Legacy.provideInlineCompletionItems.
  rewrite (lineAt_valid _ _ V).
  change (JS.substring
            (Editor.lineText (Provider.document c) (Editor.line (Provider.position c)))
            0 (Editor.character (Provider.position c)))
    with (Provider.inText (Provider.currentInput c)).
  rewrite !(legacy_gate_ignores_rate_limit _ c V).
  destruct (Provider.allowedByContext c).
  - unfold Legacy.requestCompletion.
    destruct (Api.getCompletion _ _) as [[|r rs]|];
      (split; [reflexivity|]); (split; [reflexivity|]);
      first [now left | now right].
  - repeat split. now left.
Qed.

Lemma legacy_state_is_irrelevant_witness :
  Legacy.result
    (Legacy.provideInlineCompletionItems {| Legacy.lastTriggerTime := 4999 |}
       Samples.call)
  = Legacy.result (Legacy.provideInlineCompletionItems Legacy.initial Samples.call).
Proof.
  exact (proj1 (legacy_state_is_irrelevant {| Legacy.lastTriggerTime := 4999 |}
                  Legacy.initial Samples.call sample_valid_position)).
Defined.

(** ** Calls that end without a request *)

Lemma blank_first_line_no_context c :
  Editor.line (Provider.position c) = 0 ->
  JS.trim (Provider.inText (Provider.currentInput c)) = ""%string ->
  Provider.allowedByContext c = false.
Proof.
  intros L B. unfold Provider.allowedByContext, Lexical.prevLines.
  rewrite B, L. reflexivity.
Qed.

(** X3.  On the first line of a document, with a blank line prefix, the
    provider never calls the backend, whatever its state and whatever the
    time: it returns [undefined] or the cached batch. *)
Theorem blank_first_line_never_requests s c :
  Editor.validPosition (Provider.document c) (Provider.position c) ->
  Editor.line (Provider.position c) = 0 ->
  JS.trim (JS.substring (Editor.lineText (Provider.document c) 0) 0
             (Editor.character (Provider.position c))) = ""%string ->
  let st := Provider.provideInlineCompletionItems s c in
  Provider.requests st = []
  /\ (Provider.result st = Returned None
      \/ Provider.result st = Returned (Provider.lastCompetionList s)).
Proof.
  intros V L B. cbv zeta. unfold Provider.provideInlineCompletionItems.
  destruct (Provider.refusedAtEntry c) eqn:R.
  - rewrite (refused_at_entry _ s c R). split; [reflexivity | now left].
  - rewrite (entry_passed_unfold _ s c R V).
    destruct (Provider.sameInput _ _); [split; [reflexivity | now right]|].
    cbv zeta.
    destruct (Provider.sameAsLastCompletion s _);
      [split; [reflexivity | now right]|].
    rewrite (blank_first_line_no_context c L), andb_false_r.
    + split; [reflexivity | now left].
    + unfold Provider.currentInput. cbn [Provider.inText]. now rewrite L.
Qed.

Lemma blank_first_line_never_requests_witness :
  Provider.requests
    (Provider.provideInlineCompletionItems Provider.initial Shape.blankFirstLine)
  = [].
Proof.
  refine (proj1 (blank_first_line_never_requests Provider.initial
                   Shape.blankFirstLine _ eq_refl eq_refl)).
  unfold Editor.validPosition, Editor.lineCount, Editor.lineText, JS.len.
  simpl. lia.
Defined.

(** X4.  When the whole current line, trimmed, equals the trimmed text of
    the last completion, and that text is not empty, a call that passes the
    entry checks returns the cached batch without calling the backend and
    without touching the trigger time, whatever the time and the context. *)
Theorem line_of_last_completion_replays s c t :
  Editor.validPosition (Provider.document c) (Provider.position c) ->
  Provider.refusedAtEntry c = false ->
  Provider.lastCompletionText s = Some t ->
  t <> ""%string ->
  JS.trim (Editor.lineText (Provider.document c) (Editor.line (Provider.position c)))
  = JS.trim t ->
  let st := Provider.provideInlineCompletionItems s c in
  Provider.result st = Returned (Provider.lastCompetionList s)
  /\ Provider.requests st = []
  /\ Provider.lastTriggerTime (Provider.after st) = Provider.lastTriggerTime s
  /\ Provider.lastInput (Provider.after st) = Some (Provider.currentInput c).
Proof.
  intros V R T N E. cbv zeta.
  pose proof (entry_passed_records_input Api.getCompletion s c R V) as LI.
  unfold Provider.provideInlineCompletionItems.
  rewrite (entry_passed_unfold _ s c R V) in *.
  destruct (Provider.sameInput _ _); [repeat split; exact LI|]. cbv zeta in *.
  assert (S : Provider.sameAsLastCompletion s
                (Editor.lineText (Provider.document c)
                   (Editor.line (Provider.position c))) = true).
  { unfold Provider.sameAsLastCompletion. rewrite T.
    destruct t as [|a t']; [congruence|].
    rewrite E. apply String.eqb_refl. }
  rewrite S in *. repeat split.
Qed.

Lemma line_of_last_completion_replays_witness :
  Provider.requests
    (Provider.provideInlineCompletionItems
       (Provider.after
          (Provider.provideInlineCompletionItems Provider.initial Samples.call))
       Shape.acceptedLine)
  = [].
Proof.
  refine (proj1 (proj2 (line_of_last_completion_replays
                          (Provider.after
                             (Provider.provideInlineCompletionItems
                                Provider.initial Samples.call))
                          Shape.acceptedLine "a + 1;"
                          _ eq_refl eq_refl _ eq_refl))).
  - unfold Editor.validPosition, Editor.lineCount, Editor.lineText, JS.len.
    simpl. lia.
  - discriminate.
Defined.

(** X5.  A call that is refused at entry (cancelled token, several
    selections, or a selected suggestion that does not start with the typed
    text) is invisible to the session: the calls that follow end in the same
    state, with the same backend log, as if it had never been made. *)
Theorem refused_call_is_invisible client s c rest :
  Provider.refusedAtEntry c = true ->
  Provider.runWith client s (c :: rest) = Provider.runWith client s rest.
Proof.
  intros R. cbn [Provider.runWith].
  rewrite (refused_at_entry client s c R).
  cbn [Provider.after Provider.requests Provider.finish map].
  destruct (Provider.runWith client s rest). reflexivity.
Qed.

Lemma refused_call_is_invisible_witness :
  Provider.runWith Api.getCompletion Provider.initial
    [Samples.cancelledAtEntry; Samples.call]
  = Provider.runWith Api.getCompletion Provider.initial [Samples.call].
Proof.
  exact (refused_call_is_invisible Api.getCompletion Provider.initial
           Samples.cancelledAtEntry [Samples.call] eq_refl).
Defined.

(** X6.  One invocation issues at most one backend call.  When it issues
    none, the only field it may change is [lastInput], which then holds the
    line, character and line prefix of the call. *)
Theorem at_most_one_request client s c :
  let st := Provider.provideInlineCompletionItemsWith client s c in
  (List.length (Provider.requests st) <= 1)%nat
  /\ (Provider.requests st = [] ->
      Provider.after st = s
      \/ Provider.after st = Provider.setLastInput s (Provider.currentInput c)).
Proof.
  cbv zeta. unfold Provider.provideInlineCompletionItemsWith.
  destruct (Provider.isCancellationRequested c); [split; [simpl; lia | now left]|].
  destruct (Provider.multipleSelections c); [split; [simpl; lia | now left]|].
  destruct (Provider.staleSelectedCompletion c); [split; [simpl; lia | now left]|].
  unfold Editor.lineAt.
  destruct ((_ <? 0) || _); [split; [simpl; lia | now left]|].
  fold (Provider.currentInput c).
  destruct (Provider.sameInput _ _); [split; [simpl; lia | now left]|]. cbv zeta.
  destruct (Provider.sameAsLastCompletion _ _);
    [split; [simpl; lia | now right]|].
  destruct (Provider.shouldTriggerCompletion _ _ _ _ _) as [[|]|];
    try (split; [simpl; lia | now right]).
  unfold Provider.requestCompletion.
  destruct (Provider.visibleInstance c) as [[cfg|]|];
    try (split; [simpl; lia | now right]).
  destruct (client _ _) as [[|r rs]|]; (split; [simpl; lia | discriminate]).
Qed.

Lemma at_most_one_request_witness :
  Provider.after
    (Provider.provideInlineCompletionItemsWith Api.getCompletion
       (Provider.after
          (Provider.provideInlineCompletionItems Provider.initial Samples.call))
       (Samples.callAt 5700))
  = Provider.after
      (Provider.provideInlineCompletionItems Provider.initial Samples.call)
  \/ Provider.after
       (Provider.provideInlineCompletionItemsWith Api.getCompletion
          (Provider.after
             (Provider.provideInlineCompletionItems Provider.initial Samples.call))
          (Samples.callAt 5700))
     = Provider.setLastInput
         (Provider.after
            (Provider.provideInlineCompletionItems Provider.initial Samples.call))
         (Provider.currentInput (Samples.callAt 5700)).
Proof.
  exact (proj2 (at_most_one_request Api.getCompletion
                  (Provider.after
                     (Provider.provideInlineCompletionItems Provider.initial
                        Samples.call))
                  (Samples.callAt 5700)) eq_refl).
Defined.

(** ** What a request leaves behind *)

Lemma empty_range position :
  Editor.newRange position position
  = {| Editor.rangeStart := position; Editor.rangeEnd := position |}.
Proof.
  unfold Editor.newRange, Editor.isBefore.
  now rewrite !Z.ltb_irrefl, andb_false_r.
Qed.

Lemma request_with_one_result s c cfg r :
  Provider.visibleInstance c = Some (Returned cfg) ->
  Api.getCompletion (Provider.backend c)
    (Provider.optionsOf c (Shape.contextText c) cfg) = Returned [r] ->
  let st := Provider.requestCompletion Api.getCompletion s c in
  Provider.result st
  = Returned (Some (Shape.singleItem (Provider.position c) (Api.text r)))
  /\ Provider.after st
     = {| Provider.lastTriggerTime := Provider.nowAtResponse c;
          Provider.lastInput := Provider.lastInput s;
          Provider.lastCompletionText := Some (Api.text r);
          Provider.lastCompetionList :=
            Some (Shape.singleItem (Provider.position c) (Api.text r)) |}.
Proof.
  intros C G. cbv zeta. unfold Provider.requestCompletion.
  rewrite C. fold (Shape.contextText c). rewrite G.
  unfold Shape.singleItem, Provider.itemOf. cbn [map].
  rewrite empty_range. split; reflexivity.
Qed.

(** X7.  A trigger that passes the gate and whose backend hands back a
    stream returns a batch of exactly one item, a zero-width insertion at
    the cursor.  If the stream ends normally the item carries the text
    extracted from the fragments; if the stream raises an error the item
    carries the empty text.  In both cases the batch is cached, its text
    becomes [lastCompletionText] and the time of the response becomes
    [lastTriggerTime]: a round trip that fails while draining arms the rate
    limit like a successful one.  When instead the backend cannot be
    invoked, the provider catches the rejection: it returns [undefined],
    and of the state only [lastInput] has changed. *)
Theorem batch_of_a_round_trip s c cfg :
  Provider.eligible s c ->
  Provider.TRIGGER_DELAY <= Provider.nowAtGate c - Provider.lastTriggerTime s ->
  Provider.visibleInstance c = Some (Returned cfg) ->
  let st := Provider.provideInlineCompletionItems s c in
  let options := Provider.optionsOf c (Shape.contextText c) cfg in
  (forall stream,
      Api.streamOf (Provider.backend c) options = Returned stream ->
      let insert :=
        match Api.drain stream "" with
        | Returned responseText => Extract.extractedText responseText
        | Threw => ""%string
        end in
      (Api.Raises stream -> insert = ""%string)
      /\ Provider.result st
         = Returned (Some (Shape.singleItem (Provider.position c) insert))
      /\ Provider.after st
         = {| Provider.lastTriggerTime := Provider.nowAtResponse c;
              Provider.lastInput := Some (Provider.currentInput c);
              Provider.lastCompletionText := Some insert;
              Provider.lastCompetionList :=
                Some (Shape.singleItem (Provider.position c) insert) |})
  /\ (Api.streamOf (Provider.backend c) options = Threw ->
      Provider.result st = Returned None
      /\ Provider.after st = Provider.setLastInput s (Provider.currentInput c)
      /\ Provider.requests st = [options]).
Proof.
  intros E D C. cbv zeta. rewrite (eligible_unfold s c E).
  destruct (Z.ltb_spec (Provider.nowAtGate c - Provider.lastTriggerTime s)
              Provider.TRIGGER_DELAY); [lia|].
  cbn [negb]. split.
  - intros stream S.
    destruct (Api.drain stream "") as [t|] eqn:Dr.
    + split;
        [intros R; rewrite (proj1 (drain_raises _) R) in Dr; discriminate Dr|].
      assert (G : Api.getCompletion (Provider.backend c)
                    (Provider.optionsOf c (Shape.contextText c) cfg)
                  = Returned [ {| Api.text := Extract.extractedText t;
                                  Api.detail := Some "AI Completion"%string |} ]).
      { unfold Api.getCompletion. rewrite S. cbn [bindO]. now rewrite Dr. }
      exact (request_with_one_result
               (Provider.setLastInput s (Provider.currentInput c)) c cfg _ C G).
    + split; [reflexivity|].
      assert (G : Api.getCompletion (Provider.backend c)
                    (Provider.optionsOf c (Shape.contextText c) cfg)
                  = Returned [ {| Api.text := ""%string;
                                  Api.detail :=
                                    Some "Error generating completion"%string |} ]).
      { unfold Api.getCompletion. rewrite S. cbn [bindO]. now rewrite Dr. }
      exact (request_with_one_result
               (Provider.setLastInput s (Provider.currentInput c)) c cfg _ C G).
  - intros S. unfold Provider.requestCompletion. rewrite C.
    fold (Shape.contextText c).
    assert (G : Api.getCompletion (Provider.backend c)
                  (Provider.optionsOf c (Shape.contextText c) cfg) = Threw).
    { unfold Api.getCompletion. now rewrite S. }
    rewrite G. repeat split.
Qed.

Lemma callFailing_eligible : Provider.eligible Provider.initial Samples.callFailing.
Proof.
  unfold Provider.eligible, Editor.validPosition, Editor.lineCount,
    Editor.lineText, JS.len.
  repeat split; try reflexivity; simpl; lia.
Qed.

Lemma callUnreachable_eligible :
  Provider.eligible Provider.initial Samples.callUnreachable.
Proof.
  unfold Provider.eligible, Editor.validPosition, Editor.lineCount,
    Editor.lineText, JS.len.
  repeat split; try reflexivity; simpl; lia.
Qed.

Lemma batch_of_a_round_trip_witness :
  Provider.result
    (Provider.provideInlineCompletionItems Provider.initial Samples.callFailing)
  = Returned (Some (Shape.singleItem Samples.position ""))
  /\ Provider.result
       (Provider.provideInlineCompletionItems Provider.initial Samples.call)
     = Returned (Some (Shape.singleItem Samples.position "a + 1;"))
  /\ Provider.result
       (Provider.provideInlineCompletionItems Provider.initial
          Samples.callUnreachable)
     = Returned None.
Proof.
  split; [|split].
  - refine (proj1 (proj2 (proj1 (batch_of_a_round_trip Provider.initial
                                   Samples.callFailing Samples.configuration
                                   callFailing_eligible _ eq_refl)
                            _ eq_refl))).
    vm_compute. discriminate.
  - refine (proj1 (proj2 (proj1 (batch_of_a_round_trip Provider.initial
                                   Samples.call Samples.configuration
                                   sample_eligible_first _ eq_refl)
                            _ eq_refl))).
    vm_compute. discriminate.
  - refine (proj1 (proj2 (batch_of_a_round_trip Provider.initial
                            Samples.callUnreachable Samples.configuration
                            callUnreachable_eligible _ eq_refl)
                     eq_refl)).
    vm_compute. discriminate.
Defined.



(** ** The client on a stream that ends normally *)

Lemma drain_streamText stream :
  ~ Api.Raises stream ->
  forall acc, Api.drain stream acc = Returned (acc ++ Shape.streamText stream)%string.
Proof.
  induction stream as [| |chunk rest IH]; intros N acc; simpl.
  - now rewrite append_empty_r.
  - exfalso. apply N. constructor.
  - assert (N' : ~ Api.Raises rest) by (intros R; apply N; now constructor).
    destruct chunk as [t|a b].
    + rewrite (IH N'). now rewrite append_assoc_s.
    + apply (IH N').
Qed.

(** X9.  When the backend hands back a stream and that stream ends without
    an error, the client returns one result whose text is extracted from
    the text fragments joined in the order of delivery; chunks without text
    (usage reports) contribute nothing. *)
Theorem getCompletion_of_clean_stream backend options stream :
  Api.streamOf backend options = Returned stream ->
  ~ Api.Raises stream ->
  Api.getCompletion backend options
  = Returned
      [ {| Api.text := Extract.extractedText (Shape.streamText stream);
           Api.detail := Some "AI Completion"%string |} ].
Proof.
  intros S N. unfold Api.getCompletion. rewrite S. cbn [bindO].
  now rewrite (drain_streamText _ N "").
Qed.

Lemma getCompletion_of_clean_stream_witness :
  Api.getCompletion Samples.answering
    (Provider.optionsOf Samples.call "const b = " Samples.configuration)
  = Returned [ {| Api.text := "a + 1;"; Api.detail := Some "AI Completion"%string |} ].
Proof.
  refine (getCompletion_of_clean_stream Samples.answering
            (Provider.optionsOf Samples.call "const b = " Samples.configuration)
            _ eq_refl _).
  intros R.
  inversion R as [|? ? R1]; subst.
  inversion R1 as [|? ? R2]; subst.
  inversion R2 as [|? ? R3]; subst.
  inversion R3.
Defined.

(** ** Extraction as the inverse of tagging *)

Lemma prefix_append p rest : String.prefix p (p ++ rest) = true.
Proof.
  induction p as [|c r IH]; simpl; [destruct rest; reflexivity|].
  destruct (ascii_dec c c); [exact IH | congruence].
Qed.

Lemma indexOf_after_free c p pre rest :
  Shape.freeOf c pre = true ->
  JS.indexOf (String c p) (pre ++ String c p ++ rest)
  = Some (String.length pre).
Proof.
  induction pre as [|x r IH]; intros F.
  - rewrite indexOf_unfold.
    change ("" ++ String c p ++ rest)%string with (String c p ++ rest)%string.
    now rewrite prefix_append.
  - simpl in F. apply andb_true_iff in F as [Fx Fr].
    apply negb_true_iff, Ascii.eqb_neq in Fx.
    rewrite indexOf_unfold.
    change (String x r ++ String c p ++ rest)%string
      with (String x (r ++ String c p ++ rest)).
    cbn [String.prefix]. destruct (ascii_dec c x); [congruence|].
    now rewrite (IH Fr).
Qed.

(** X10.  Extraction undoes tagging.  If neither the text before the
    opening tag nor the payload holds the character [<], then whatever
    follows the closing tag, the payload comes back unchanged. *)
Theorem extraction_inverts_tagging noise payload trailing :
  Shape.freeOf "<" noise = true ->
  Shape.freeOf "<" payload = true ->
  Extract.extractedText
    (noise ++ "<COMPLETION>" ++ payload ++ "</COMPLETION>" ++ trailing)
  = payload.
Proof.
  intros Fn Fp. rewrite extractedText_twoScan. unfold Extract.twoScan.
  change Extract.OPEN_TAG with (String "<" "COMPLETION>").
  rewrite (indexOf_after_free "<" "COMPLETION>" noise _ Fn).
  rewrite <- drop_drop, drop_append.
  change (JS.drop (String.length (String "<" "COMPLETION>"))
            (String "<" "COMPLETION>" ++ payload ++ "</COMPLETION>" ++ trailing))
    with (payload ++ "</COMPLETION>" ++ trailing)%string.
  change Extract.CLOSE_TAG with (String "<" "/COMPLETION>").
  rewrite (indexOf_after_free "<" "/COMPLETION>" payload trailing Fp).
  apply take_append.
Qed.

Lemma extraction_inverts_tagging_witness :
  Extract.extractedText
    ("Here you go: " ++ "<COMPLETION>" ++ "sum += i;" ++ "</COMPLETION>"
     ++ " <COMPLETION>second</COMPLETION>")
  = "sum += i;".
Proof.
  apply (extraction_inverts_tagging "Here you go: " "sum += i;"
           " <COMPLETION>second</COMPLETION>"); reflexivity.
Defined.

Lemma prefix_of_take p n s :
  String.prefix p (JS.take n s) = true -> String.prefix p s = true.
Proof.
  revert n s; induction p as [|c r IH]; intros n s;
    [destruct s; reflexivity|].
  destruct n as [|n], s as [|x s']; simpl; try discriminate.
  destruct (ascii_dec c x); [apply IH | discriminate].
Qed.

Lemma indexOf_take_none c p s j :
  JS.indexOf (String c p) s = Some j ->
  JS.indexOf (String c p) (JS.take j s) = None.
Proof.
  revert j; induction s as [|x r IH]; intros j; rewrite indexOf_unfold.
  - discriminate.
  - destruct (String.prefix (String c p) (String x r)) eqn:P.
    + now intros [= <-].
    + destruct (JS.indexOf (String c p) r) as [k|] eqn:E; [|discriminate].
      intros [= <-]. cbn [JS.take]. rewrite indexOf_unfold.
      destruct (String.prefix (String c p) (String x (JS.take k r))) eqn:Q.
      * apply (prefix_of_take _ (S k) (String x r)) in Q. congruence.
      * now rewrite (IH k eq_refl).
Qed.

(** X11.  The extracted text never holds a closing tag: whatever the
    response, [</COMPLETION>] does not occur in what is handed on as
    completion. *)
Theorem extracted_text_has_no_closing_tag s :
  JS.includes Extract.CLOSE_TAG (Extract.extractedText s) = false.
Proof.
  unfold JS.includes. rewrite extractedText_twoScan. unfold Extract.twoScan.
  destruct (JS.indexOf Extract.OPEN_TAG s) as [i|]; [|reflexivity].
  set (rest := JS.drop (i + String.length Extract.OPEN_TAG) s).
  destruct (JS.indexOf Extract.CLOSE_TAG rest) as [j|] eqn:E; [|reflexivity].
  change Extract.CLOSE_TAG with (String "<" "/COMPLETION>") in *.
  now rewrite (indexOf_take_none _ _ _ _ E).
Qed.

(** ** The context handed to the client *)

Lemma contextText_window c :
  Editor.validPosition (Provider.document c) (Provider.position c) ->
  Shape.contextText c
  = JS.join (Editor.eol (Provider.document c))
      (Lexical.windowLines (Provider.document c) (Provider.position c)).
Proof.
  intros V. unfold Shape.contextText. rewrite (contextRange_ends _ _ V).
  assert (V0 : Editor.validPosition (Provider.document c)
                 {| Editor.line := Z.max 0 (Editor.line (Provider.position c) - 3);
                    Editor.character := 0 |}).
  { destruct V as [Hl Hc]. split; cbn [Editor.line Editor.character];
      unfold JS.len; lia. }
  unfold Editor.getText. cbn [Editor.rangeStart Editor.rangeEnd].
  rewrite (validatePosition_valid _ _ V), (validatePosition_valid _ _ V0).
  cbn [Editor.line Editor.character]. unfold Lexical.windowLines.
  destruct V as [Hl Hc].
  destruct (Z.eqb_spec (Z.max 0 (Editor.line (Provider.position c) - 3))
              (Editor.line (Provider.position c))) as [E|N].
  - rewrite E, linesBetween_empty. reflexivity.
  - rewrite (linesBetween_step (Provider.document c)
               (Z.max 0 (Editor.line (Provider.position c) - 3))) by lia.
    rewrite substringFrom_drop. reflexivity.
Qed.

Lemma join_snoc sep xs y :
  xs <> [] ->
  JS.join sep (xs ++ [y]) = (JS.join sep xs ++ sep ++ y)%string.
Proof.
  induction xs as [|x [|x' r] IH]; intros N.
  - congruence.
  - reflexivity.
  - change (JS.join sep ((x :: x' :: r) ++ [y]))
      with (x ++ sep ++ JS.join sep ((x' :: r) ++ [y]))%string.
    rewrite IH by discriminate.
    change (JS.join sep (x :: x' :: r))
      with (x ++ sep ++ JS.join sep (x' :: r))%string.
    now rewrite !append_assoc_s.
Qed.

Lemma take_whole s : JS.take (String.length s) s = s.
Proof. induction s as [|x r IH]; simpl; [reflexivity | now rewrite IH]. Qed.

Lemma drop_whole s : JS.drop (String.length s) s = ""%string.
Proof. induction s as [|x r IH]; simpl; [reflexivity | exact IH]. Qed.

Lemma length_take_le n s :
  (n <= String.length s)%nat -> String.length (JS.take n s) = n.
Proof.
  revert s; induction n as [|n IH]; intros [|x r] H; simpl in *;
    try reflexivity; try lia.
  f_equal. apply IH. lia.
Qed.

(** The context is some text that is empty or ends in a line break,
    followed by the cut cursor line. *)
Lemma context_splits c nobreak :
  Editor.validPosition (Provider.document c) (Provider.position c) ->
  Editor.eol (Provider.document c) = (nobreak ++ JS.nl)%string ->
  Shape.freeOf "010" (Provider.inText (Provider.currentInput c)) = true ->
  exists before,
    Shape.contextText c
    = (before ++ Provider.inText (Provider.currentInput c))%string
    /\ JS.lastIndexOf JS.nl (Shape.contextText c) + 1
       = Z.of_nat (String.length before).
Proof.
  intros V El F. rewrite (contextText_window c V). unfold Lexical.windowLines.
  change (JS.substring
            (Editor.lineText (Provider.document c) (Editor.line (Provider.position c)))
            0 (Editor.character (Provider.position c)))
    with (Provider.inText (Provider.currentInput c)).
  set (cut := Provider.inText (Provider.currentInput c)) in *.
  destruct (Editor.linesBetween _ _ _) as [|x xs] eqn:L.
  - exists ""%string. split; [reflexivity|].
    cbn [app JS.join]. unfold JS.lastIndexOf.
    now rewrite (lastIndexFrom_free _ F).
  - rewrite join_snoc by discriminate. rewrite El.
    exists (JS.join (nobreak ++ JS.nl) (x :: xs) ++ nobreak ++ JS.nl)%string.
    split; [now rewrite !append_assoc_s|].
    rewrite <- !append_assoc_s.
    rewrite (append_assoc_s _ JS.nl cut).
    unfold JS.lastIndexOf. rewrite (lastIndexFrom_last_break _ F).
    rewrite (length_append_s _ JS.nl). cbn [String.length JS.nl]. lia.
Qed.

(** X12.  The provider always places the hole at the very end of the
    context.  For a valid cursor position in a document whose line separator
    ends in a line feed, and a line prefix without a line feed, the client
    splits the context it receives into the whole context as prefix and an
    empty suffix: the text after the cursor never reaches the prompt. *)
Theorem hole_at_end_of_context c cfg nobreak :
  Editor.validPosition (Provider.document c) (Provider.position c) ->
  Editor.eol (Provider.document c) = (nobreak ++ JS.nl)%string ->
  Shape.freeOf "010" (Provider.inText (Provider.currentInput c)) = true ->
  let options := Provider.optionsOf c (Shape.contextText c) cfg in
  Api.prefix options = Shape.contextText c
  /\ Api.suffix options = ""%string
  /\ Api.fullPrompt options
     = (Api.SYSTEM_MSG
        ++ (JS.nl ++ JS.nl ++ "<QUERY>" ++ JS.nl
            ++ Shape.contextText c ++ Api.SENTINEL ++ Api.CLOSING))%string.
Proof.
  intros V El F. cbv zeta.
  destruct (context_splits c nobreak V El F) as [before [Hctx Hidx]].
  set (options := Provider.optionsOf c (Shape.contextText c) cfg).
  assert (H : Api.holeOffset options = String.length (Shape.contextText c)).
  { unfold Api.holeOffset, Api.lastLineStart, Api.lastLineBreakIndex.
    change (Api.prompt options) with (Shape.contextText c).
    change (Api.cursorPosition options)
      with (Editor.character (Provider.position c)).
    rewrite Hidx, !Nat2Z.id, Hctx, drop_append, length_append_s. f_equal.
    assert (Lc : String.length (Provider.inText (Provider.currentInput c))
                 = Z.to_nat (Editor.character (Provider.position c))).
    { unfold Provider.currentInput. cbn [Provider.inText].
      rewrite substring_from_zero. apply length_take_le.
      destruct V as [_ Hc]. unfold JS.len in Hc. lia. }
    unfold JS.len. rewrite Lc. destruct V as [_ Hc]. lia. }
  assert (P : Api.prefix options = Shape.contextText c).
  { rewrite prefix_take, H. apply take_whole. }
  assert (S : Api.suffix options = ""%string).
  { rewrite suffix_drop, H. apply drop_whole. }
  split; [exact P|]. split; [exact S|].
  unfold Api.fullPrompt. now rewrite P, S.
Qed.

Lemma hole_at_end_of_context_witness :
  Api.suffix
    (Provider.optionsOf Samples.call (Shape.contextText Samples.call)
       Samples.configuration)
  = ""%string.
Proof.
  refine (proj1 (proj2 (hole_at_end_of_context Samples.call Samples.configuration
                          ""%string sample_valid_position eq_refl eq_refl))).
Defined.

Lemma window_has_at_most_four_lines document position :
  Editor.validPosition document position ->
  List.length (Lexical.windowLines document position)
  = (Z.to_nat (Z.min (Editor.line position) 3) + 1)%nat.
Proof.
  intros [Hl _]. unfold Lexical.windowLines, Editor.linesBetween, Editor.lineCount in *.
  rewrite length_app, length_firstn, length_skipn. cbn [List.length]. lia.
Qed.

Lemma countChar_append q a b :
  Lexical.countChar q (a ++ b)
  = (Lexical.countChar q a + Lexical.countChar q b)%nat.
Proof.
  induction a as [|x r IH]; [reflexivity|].
  cbn [append Lexical.countChar]. destruct (Ascii.eqb x q); rewrite IH; reflexivity.
Qed.

Lemma countChar_free q s :
  Shape.freeOf q s = true -> Lexical.countChar q s = 0%nat.
Proof.
  induction s as [|x r IH]; [reflexivity|].
  cbn [Shape.freeOf Lexical.countChar]. intros H.
  apply andb_true_iff in H as [Hx Hr]. apply negb_true_iff in Hx.
  rewrite Hx. now apply IH.
Qed.

Lemma freeOf_take q n s :
  Shape.freeOf q s = true -> Shape.freeOf q (JS.take n s) = true.
Proof.
  revert s; induction n as [|n IH]; intros [|x r] H; try reflexivity.
  cbn [Shape.freeOf JS.take] in *. apply andb_true_iff in H as [Hx Hr].
  now rewrite Hx, (IH r Hr).
Qed.

Lemma countChar_join q sep l :
  Lexical.countChar q sep = 1%nat ->
  (forall x, In x l -> Shape.freeOf q x = true) ->
  Lexical.countChar q (JS.join sep l) = Nat.pred (List.length l).
Proof.
  intros Hs. induction l as [|x [|y r] IH]; intros F.
  - reflexivity.
  - cbn [JS.join List.length Nat.pred]. apply countChar_free, F. now left.
  - change (JS.join sep (x :: y :: r))
      with (x ++ sep ++ JS.join sep (y :: r))%string.
    rewrite !countChar_append, Hs, IH.
    + rewrite (countChar_free q x) by (apply F; now left). reflexivity.
    + intros z Hz. apply F. now right.
Qed.

Lemma In_firstn_skipn {A : Type} (x : A) n m l :
  In x (firstn n (skipn m l)) -> In x l.
Proof.
  revert m l. assert (P : forall k (l : list A), In x (firstn k l) -> In x l).
  { induction k as [|k IH]; intros [|y l] H; simpl in *; try tauto.
    destruct H as [H|H]; [now left | right; now apply IH]. }
  assert (Q : forall m (l : list A), In x (skipn m l) -> In x l).
  { induction m as [|m IH]; intros [|y l] H; simpl in *; try tauto.
    right. now apply IH. }
  intros m l H. exact (Q m l (P n _ H)).
Qed.

(** X13.  The context text spans at most four lines.  For a valid cursor
    position in a document whose lines hold no line feed and whose line
    separator holds exactly one, at its end, the text handed to the client
    holds as many line feeds as the smaller of the cursor line number and
    three. *)
Theorem context_has_at_most_three_line_feeds c nobreak :
  Editor.validPosition (Provider.document c) (Provider.position c) ->
  Editor.eol (Provider.document c) = (nobreak ++ JS.nl)%string ->
  Shape.freeOf "010" nobreak = true ->
  (forall ln, In ln (Editor.lines (Provider.document c)) ->
              Shape.freeOf "010" ln = true) ->
  Lexical.countChar "010" (Shape.contextText c)
  = Z.to_nat (Z.min (Editor.line (Provider.position c)) 3).
Proof.
  intros V El Fe Fl. rewrite (contextText_window c V).
  rewrite (countChar_join "010").
  - rewrite (window_has_at_most_four_lines _ _ V). lia.
  - rewrite El, countChar_append, (countChar_free _ _ Fe). reflexivity.
  - intros x Hx. unfold Lexical.windowLines in Hx.
    apply in_app_or in Hx as [Hx|[<-|[]]].
    + apply Fl. exact (In_firstn_skipn x _ _ _ Hx).
    + rewrite substring_from_zero. apply freeOf_take, Fl.
      unfold Editor.lineText. apply nth_In.
      destruct V as [Hl _]. unfold Editor.lineCount in Hl. lia.
Qed.

Lemma context_has_at_most_three_line_feeds_witness :
  Lexical.countChar "010" (Shape.contextText Samples.call) = 1%nat.
Proof.
  refine (context_has_at_most_three_line_feeds Samples.call ""%string
            sample_valid_position eq_refl eq_refl _).
  intros ln [<-|[<-|[]]]; reflexivity.
Defined.

(** ** The handler table *)

(** X15.  [buildApiHandler] builds the Anthropic handler exactly when the
    configured provider is none of the nine other known names: a missing,
    misspelt or unknown provider name silently selects Anthropic. *)
Theorem handler_fallback configuration :
  Api.handlerClass (Api.buildApiHandler configuration) = Api.AnthropicHandler
  <-> (forall p, Api.apiProvider configuration = Some p ->
                 ~ In p Shape.otherProviders).
Proof.
  unfold Api.buildApiHandler, Api.classOf, JS.seq, Shape.otherProviders.
  cbn [Api.handlerClass].
  destruct (Api.apiProvider configuration) as [p|].
  - repeat match goal with
           | |- context [String.eqb p ?x] =>
               destruct (String.eqb_spec p x) as [->|?]; cbn
           end;
      (split;
       [ try discriminate; intros _ q [= <-]; cbn; intuition congruence
       | try reflexivity; intros H; exfalso; apply (H _ eq_refl); cbn; tauto ]).
  - split; [intros _ q Hq; discriminate Hq | reflexivity].
Qed.

(** ** The comment guard *)

Lemma lastIndexFrom_absent pat s :
  JS.indexOf pat s = None -> forall i, JS.lastIndexFrom pat s i = None.
Proof.
  induction s as [|x r IH]; rewrite indexOf_unfold; intros H i.
  - cbn [JS.lastIndexFrom]. destruct (String.prefix pat ""); [discriminate|reflexivity].
  - destruct (String.prefix pat (String x r)) eqn:P; [discriminate|].
    destruct (JS.indexOf pat r); [discriminate|].
    cbn [JS.lastIndexFrom]. now rewrite (IH eq_refl), P.
Qed.

Lemma lastIndexFrom_present pat s :
  JS.indexOf pat s <> None ->
  forall i, exists j, JS.lastIndexFrom pat s i = Some j /\ i <= j.
Proof.
  induction s as [|x r IH]; rewrite indexOf_unfold; intros H i.
  - cbn [JS.lastIndexFrom]. destruct (String.prefix pat ""); [|congruence].
    exists i. split; [reflexivity | lia].
  - cbn [JS.lastIndexFrom].
    destruct (JS.indexOf pat r) as [k|] eqn:E.
    + destruct (IH ltac:(discriminate) (i + 1)) as [j [-> Hj]].
      exists j. split; [reflexivity | lia].
    + rewrite (lastIndexFrom_absent _ _ E).
      destruct (String.prefix pat (String x r)); [|cbn in H; congruence].
      exists i. split; [reflexivity | lia].
Qed.

(** X16.  At a valid cursor position [isInComment] answers without
    throwing.  With [//] before the cursor on its line the answer is
    [true].  Without it the answer is [false] when no [/*] lies between the
    start of the document and the cursor, and [true] when a [/*] lies there
    but no [*/]. *)
Theorem isInComment_cases document position :
  Editor.validPosition document position ->
  let linePrefix :=
    JS.substring (Editor.lineText document (Editor.line position)) 0
      (Editor.character position) in
  let text := Shape.textBeforeCursor document position in
  (JS.includes "//" linePrefix = true ->
   Lexical.isInComment document position = Returned true)
  /\ (JS.includes "//" linePrefix = false ->
      JS.includes "/*" text = false ->
      Lexical.isInComment document position = Returned false)
  /\ (JS.includes "/*" text = true ->
      JS.includes "*/" text = false ->
      Lexical.isInComment document position = Returned true).
Proof.
  intros V. cbv zeta. unfold Lexical.isInComment.
  rewrite (lineAt_valid _ _ V). cbn [bindO].
  fold (Shape.textBeforeCursor document position).
  unfold JS.includes, JS.lastIndexOf.
  split; [|split].
  - intros H. destruct (JS.indexOf "//" _); [reflexivity|discriminate].
  - intros H1 H2. destruct (JS.indexOf "//" _); [discriminate|].
    destruct (JS.indexOf "/*" _) eqn:E; [discriminate|].
    rewrite (lastIndexFrom_absent _ _ E). f_equal.
    destruct (JS.indexOf "*/" (Shape.textBeforeCursor document position)) eqn:E2.
    + destruct (lastIndexFrom_present "*/"
                  (Shape.textBeforeCursor document position)
                  ltac:(congruence) 0) as [j [-> Hj]].
      apply Z.ltb_ge. lia.
    + now rewrite (lastIndexFrom_absent _ _ E2).
  - intros H1 H2. destruct (JS.indexOf "//" _); [reflexivity|].
    destruct (JS.indexOf "*/" _) eqn:E2; [discriminate|].
    rewrite (lastIndexFrom_absent _ _ E2).
    destruct (lastIndexFrom_present "/*"
                (Shape.textBeforeCursor document position)
                ltac:(destruct (JS.indexOf "/*" _); [discriminate|discriminate])
                0) as [j [-> Hj]].
    f_equal. apply Z.ltb_lt. lia.
Qed.

Lemma isInComment_cases_witness :
  Lexical.isInComment
    {| Editor.lines := ["/* note"; "  still inside"]%string; Editor.eol := JS.nl;
       Editor.languageId := "c" |}
    {| Editor.line := 1; Editor.character := 4 |}
  = Returned true.
Proof.
  refine (proj2 (proj2 (isInComment_cases
            {| Editor.lines := ["/* note"; "  still inside"]%string;
               Editor.eol := JS.nl; Editor.languageId := "c" |}
            {| Editor.line := 1; Editor.character := 4 |} _)) eq_refl eq_refl).
  unfold Editor.validPosition, Editor.lineCount, Editor.lineText, JS.len.
  simpl. lia.
Defined.

(** ** Errors and the remembered input *)

(** X17.  The promise of the provider is rejected in one case only.  At a
    valid cursor position, and whenever an entry check refuses the call, it
    settles with a value, whatever the client does; when the entry checks
    pass and the cursor line is not a line of the document, it is rejected
    before anything is stored or requested. *)
Theorem rejection_only_off_document client s c :
  let st := Provider.provideInlineCompletionItemsWith client s c in
  (Provider.refusedAtEntry c = true
   \/ Editor.validPosition (Provider.document c) (Provider.position c) ->
   exists value, Provider.result st = Returned value)
  /\ (Provider.refusedAtEntry c = false ->
      Editor.line (Provider.position c) < 0
      \/ Editor.lineCount (Provider.document c) <= Editor.line (Provider.position c) ->
      Provider.result st = Threw
      /\ Provider.after st = s
      /\ Provider.requests st = []).
Proof.
  cbv zeta. split.
  - intros [R|V].
    + rewrite (refused_at_entry client s c R). eexists; reflexivity.
    + destruct (Provider.refusedAtEntry c) eqn:R.
      * rewrite (refused_at_entry client s c R). eexists; reflexivity.
      * rewrite (entry_passed_unfold client s c R V).
        destruct (Provider.sameInput _ _); [eexists; reflexivity|]. cbv zeta.
        destruct (Provider.sameAsLastCompletion s _); [eexists; reflexivity|].
        destruct (negb _ && _); [|eexists; reflexivity].
        destruct (requestCompletion_after client
                    (Provider.setLastInput s (Provider.currentInput c)) c)
          as [_ [[_ ->]|[l [-> _]]]]; eexists; reflexivity.
  - intros R Off. unfold Provider.provideInlineCompletionItemsWith.
    unfold Provider.refusedAtEntry in R.
    apply orb_false_iff in R as [R R3]. apply orb_false_iff in R as [R1 R2].
    rewrite R1, R2, R3. unfold Editor.lineAt.
    assert (O : (Editor.line (Provider.position c) <? 0)
                || (Editor.lineCount (Provider.document c)
                    <=? Editor.line (Provider.position c)) = true).
    { apply orb_true_iff. destruct Off; [left; now apply Z.ltb_lt
                                        | right; now apply Z.leb_le]. }
    rewrite O. repeat split.
Qed.

Lemma rejection_only_off_document_witness :
  (exists value,
      Provider.result
        (Provider.provideInlineCompletionItemsWith (fun _ _ => Threw)
           Provider.initial Samples.call)
      = Returned value)
  /\ Provider.result
       (Provider.provideInlineCompletionItemsWith Api.getCompletion
          Provider.initial Shape.offDocument)
     = Threw.
Proof.
  split.
  - exact (proj1 (rejection_only_off_document (fun _ _ => Threw)
                    Provider.initial Samples.call)
             (or_intror sample_valid_position)).
  - refine (proj1 (proj2 (rejection_only_off_document Api.getCompletion
                            Provider.initial Shape.offDocument)
                     eq_refl (or_intror _))).
    vm_compute. discriminate.
Defined.

(** X18.  Every call that passes the entry checks at a valid cursor
    position leaves its own line, character and line prefix in [lastInput],
    on every path: replay, denial by the gate, missing configuration, failed
    or successful round trip. *)
Theorem input_is_always_recorded client s c :
  Provider.refusedAtEntry c = false ->
  Editor.validPosition (Provider.document c) (Provider.position c) ->
  Provider.lastInput
    (Provider.after (Provider.provideInlineCompletionItemsWith client s c))
  = Some {| Provider.inLine := Editor.line (Provider.position c);
            Provider.inCharacter := Editor.character (Provider.position c);
            Provider.inText :=
              JS.substring
                (Editor.lineText (Provider.document c)
                   (Editor.line (Provider.position c)))
                0 (Editor.character (Provider.position c)) |}.
Proof. exact (entry_passed_records_input client s c). Qed.

Lemma input_is_always_recorded_witness :
  Provider.lastInput
    (Provider.after
       (Provider.provideInlineCompletionItemsWith (fun _ _ => Threw)
          Provider.initial Samples.call))
  = Some {| Provider.inLine := 1; Provider.inCharacter := 10;
            Provider.inText := "const b = " |}.
Proof.
  exact (input_is_always_recorded (fun _ _ => Threw) Provider.initial Samples.call
           eq_refl sample_valid_position).
Defined.
